(** * HealthKart influencer campaign dashboard: metrics pipeline

    A shallow embedding of [dashboard.py]: the four CSV tables, the two left
    merges and the fill policy that build [campaign_data], the sidebar
    filters, the KPI block, the grouped aggregations, the leaderboard and the
    generated report.

    Numbers are exact rationals ([Qc]); a data frame cell that can be missing
    is an [option]; the result of a vectorised division is a [float] that can
    be infinite or NaN, as numpy's is. *)

From Stdlib Require Import ZArith QArith Qcanon List String Bool Lia.
From Stdlib Require Import Permutation Sorted.
Import ListNotations.

Local Open Scope string_scope.

(** ** The part of pandas and numpy the script relies on *)

Module Pandas.

(** A float64 cell after arithmetic: finite, infinite or NaN. *)
Inductive float : Type :=
| Fin (q : Qc)
| PInf
| NInf
| NaN.

Definition Qceqb (x y : Qc) : bool := Qeq_bool x y.
Definition Qcleb (x y : Qc) : bool := Qle_bool x y.
Definition Qcltb (x y : Qc) : bool := negb (Qle_bool y x).

(** [a / b] on two columns: numpy's true division, which does not raise on a
    zero divisor. *)
Definition truediv (a b : Qc) : float :=
  if Qceqb b 0%Qc then
    if Qceqb a 0%Qc then NaN
    else if Qcltb 0%Qc a then PInf else NInf
  else Fin (a / b)%Qc.

(** [Series.sum()]: missing cells are skipped, the empty sum is 0. *)
Definition sum (cells : list (option Qc)) : Qc :=
  fold_right (fun c acc => match c with
                           | Some q => (q + acc)%Qc
                           | None => acc
                           end) 0%Qc cells.

(** [Series.fillna(v)] on one cell. *)
Definition fillna {A : Type} (v : A) (c : option A) : option A :=
  match c with
  | Some x => Some x
  | None => Some v
  end.

(** [df.replace([np.inf, -np.inf], np.nan)] on one float cell. *)
Definition replace_inf (x : float) : float :=
  match x with
  | PInf | NInf => NaN
  | _ => x
  end.

(** [df.fillna(0)] on one float cell. *)
Definition fillna0 (x : float) : float :=
  match x with
  | NaN => Fin 0%Qc
  | _ => x
  end.

Definition is_finite (x : float) : bool :=
  match x with
  | Fin _ => true
  | _ => false
  end.

(** Join keys: pandas matches a missing key with a missing key. *)
Definition key_eqb (a b : option Z) : bool :=
  match a, b with
  | Some x, Some y => Z.eqb x y
  | None, None => true
  | _, _ => false
  end.

(** [pd.merge(left, right, how='left')]: every left row is kept, once per
    matching right row, or once with the right columns missing. *)
Definition merge_left {L R O : Type} (matches : L -> R -> bool)
    (join : L -> option R -> O) (left : list L) (right : list R) : list O :=
  flat_map (fun l => match filter (matches l) right with
                     | [] => [join l None]
                     | ms => map (fun r => join l (Some r)) ms
                     end) left.

(** [pd.merge(left, right)] (inner): a left row with no match is dropped. *)
Definition merge_inner {L R O : Type} (matches : L -> R -> bool)
    (join : L -> R -> O) (left : list L) (right : list R) : list O :=
  flat_map (fun l => map (join l) (filter (matches l) right)) left.

(** [Series.isin(values)] on a string cell; a missing cell is in no list of
    strings. *)
Definition isin (c : option string) (values : list string) : bool :=
  match c with
  | Some s => existsb (String.eqb s) values
  | None => false
  end.

(** ['All' in values] *)
Definition contains (s : string) (values : list string) : bool :=
  existsb (String.eqb s) values.

(** [df.head(n)] and [df.tail(n)]: both return what there is when fewer than
    [n] rows exist. *)
Definition head {A : Type} (n : nat) (l : list A) : list A := firstn n l.
Definition tail {A : Type} (n : nat) (l : list A) : list A :=
  skipn (List.length l - n) l.

(** The order numpy sorts the non-NaN floats by. *)
Definition float_leb (x y : float) : bool :=
  match x, y with
  | NInf, _ => true
  | _, PInf => true
  | Fin a, Fin b => Qcleb a b
  | _, _ => false
  end.

Definition isnan (x : float) : bool :=
  match x with
  | NaN => true
  | _ => false
  end.

(** numpy's [<] on doubles ([npy::double_tag::less]): NaN is greater than
    every number. *)
Definition less (x y : float) : bool :=
  match x, y with
  | NaN, _ => false
  | _, NaN => true
  | _, _ => negb (float_leb y x)
  end.

(** [a[i] = x] on an array held as a list; out of range it writes nothing. *)
Fixpoint update {A : Type} (i : nat) (x : A) (l : list A) : list A :=
  match l, i with
  | [] , _ => []
  | _ :: l', O => x :: l'
  | y :: l', S i' => y :: update i' x l'
  end.

(** Runs with [pr - pl] at most this are sorted by insertion. *)
Definition SMALL_QUICKSORT : nat := 16.

(** [npy_get_msb]: the position of the highest set bit. *)
Definition npy_get_msb (n : nat) : Z := Z.log2 (Z.of_nat n).

Section Sorting.
Context {A : Type}.
Variable key : A -> float.

(** The comparison of two rows by their keys. *)
Definition less_by (a b : A) : bool := less (key a) (key b).

(** *** The argsort

    The script calls [sort_values] without [kind], so pandas asks numpy for
    its default, ["quicksort"]: the introsort [aquicksort_] of
    [npysort/quicksort.cpp], taken here in its portable form, without the
    SIMD dispatch of some builds. It partitions a run around the median of its
    first, middle and last element while the run has more than
    [SMALL_QUICKSORT + 1] elements, sorts shorter runs by insertion, and
    hands a run to heapsort when the depth budget is used up. Only the
    insertion sort keeps rows with equal keys in their order. The array of
    row numbers [tosort] is held as the list of the rows themselves. *)

(** The insertion loop, with the sorted run held last element first: the new
    row moves left past the rows that are greater. *)
Fixpoint insert (x : A) (run : list A) : list A :=
  match run with
  | [] => [x]
  | y :: run' => if less_by x y then y :: insert x run' else x :: run
  end.

Definition insertion_sort (l : list A) : list A :=
  rev (fold_left (fun run x => insert x run) l []).

Section Arrays.
(** What [nth] returns out of range; the sort reads within range only. *)
Variable d : A.

Definition INTP_SWAP (i j : nat) (l : list A) : list A :=
  update j (nth i l d) (update i (nth j l d) l).

(** [do { ++pi; } while (less(v[*pi], vp))] *)
Fixpoint scan_up (fuel : nat) (l : list A) (vp : A) (i : nat) : nat :=
  match fuel with
  | O => S i
  | S fuel' =>
      if less_by (nth (S i) l d) vp then scan_up fuel' l vp (S i) else S i
  end.

(** [do { --pj; } while (less(vp, v[*pj]))] *)
Fixpoint scan_down (fuel : nat) (l : list A) (vp : A) (j : nat) : nat :=
  match fuel with
  | O => pred j
  | S fuel' =>
      if less_by vp (nth (pred j) l d) then scan_down fuel' l vp (pred j)
      else pred j
  end.

(** The partition loop: scan, stop when the two indices meet, swap. *)
Fixpoint partition_loop (fuel : nat) (l : list A) (vp : A) (i j : nat)
  : list A * nat :=
  match fuel with
  | O => (l, i)
  | S fuel' =>
      let i' := scan_up (List.length l) l vp i in
      let j' := scan_down (List.length l) l vp j in
      if (j' <=? i')%nat then (l, i')
      else partition_loop fuel' (INTP_SWAP i' j' l) vp i' j'
  end.

(** The three conditional swaps that put the median of the first, middle and
    last row in the middle. *)
Definition median_of_3 (l : list A) : list A :=
  let n := List.length l in
  let m := ((n - 1) / 2)%nat in
  let l1 := if less_by (nth m l d) (nth 0 l d) then INTP_SWAP m 0 l else l in
  let l2 := if less_by (nth (n - 1) l1 d) (nth m l1 d)
            then INTP_SWAP (n - 1) m l1 else l1 in
  if less_by (nth m l2 d) (nth 0 l2 d) then INTP_SWAP m 0 l2 else l2.

(** One partition of the run [l] ([pl = 0], [pr = n - 1]): the pivot is
    parked at [pr - 1], the loop runs between [pl] and [pr - 1], and the
    pivot is swapped to where the loop stopped. The result is the run and
    the pivot's index [pi]. *)
Definition quicksort_partition (l : list A) : list A * nat :=
  let n := List.length l in
  let m := ((n - 1) / 2)%nat in
  let l3 := median_of_3 l in
  let vp := nth m l3 d in
  let l4 := INTP_SWAP m (n - 2) l3 in
  let (l5, i) := partition_loop n l4 vp 0 (n - 2) in
  (INTP_SWAP i (n - 2) l5, i).

(** Heapsort [aheapsort_], on the array seen from index 1
    ([a = tosort - 1]). *)
Definition get1 (a : list A) (k : nat) : A := nth (k - 1) a d.
Definition set1 (k : nat) (x : A) (a : list A) : list A := update (k - 1) x a.

(** The inner loop: the hole at [i] moves down to the greater child [j] while
    [tmp] is less than that child; then [a[i] = tmp]. *)
Fixpoint sift (fuel : nat) (a : list A) (tmp : A) (i n : nat) : list A :=
  match fuel with
  | O => set1 i tmp a
  | S fuel' =>
      let j := (2 * i)%nat in
      if (j <=? n)%nat then
        let j := if (j <? n)%nat && less_by (get1 a j) (get1 a (j + 1))
                 then (j + 1)%nat else j in
        if less_by tmp (get1 a j)
        then sift fuel' (set1 i (get1 a j) a) tmp j n
        else set1 i tmp a
      else set1 i tmp a
  end.

(** [for (l = n >> 1; l > 0; --l)]: build the heap. *)
Fixpoint heapify (l : nat) (a : list A) (n : nat) : list A :=
  match l with
  | O => a
  | S l' => heapify l' (sift n a (get1 a l) l n) n
  end.

(** [for (; n > 1;)]: move the root behind the heap and sift the last leaf
    down from the root. *)
Fixpoint sort_heap (n : nat) (a : list A) : list A :=
  match n with
  | O => a
  | S n' =>
      if (1 <? n)%nat then
        let tmp := get1 a n in
        let a := set1 n (get1 a 1) a in
        sort_heap n' (sift n' a tmp 1 n')
      else a
  end.

Definition aheapsort (a : list A) : list A :=
  let n := List.length a in
  sort_heap n (heapify (n / 2) a n).

(** The introsort. [check] is true where the loop of [aquicksort_] tests the
    depth budget (at its top: for the whole array and for a run popped off
    the stack) and false for the run the inner loop goes on with, which is
    the smaller side of the partition; both sides get the budget less one.
    The runs are disjoint, so the order in which the stack yields them does
    not show in the result. [fuel] bounds the recursion; the length of the
    run is enough. *)
Fixpoint aquicksort (fuel : nat) (check : bool) (cdepth : Z) (l : list A)
  : list A :=
  match fuel with
  | O => insertion_sort l
  | S fuel' =>
      if check && (cdepth <? 0)%Z then aheapsort l
      else if (SMALL_QUICKSORT <? List.length l - 1)%nat then
        let (l', i) := quicksort_partition l in
        let left := firstn i l' in
        let right := skipn (S i) l' in
        let cdepth' := (cdepth - 1)%Z in
        if (List.length left <? List.length right)%nat
        then (aquicksort fuel' false cdepth' left
                ++ nth i l' d :: aquicksort fuel' true cdepth' right)%list
        else (aquicksort fuel' true cdepth' left
                ++ nth i l' d :: aquicksort fuel' false cdepth' right)%list
      else insertion_sort l
  end.

End Arrays.

(** [values.argsort(kind="quicksort")], returning the rows in sorted order. *)
Definition argsort (l : list A) : list A :=
  match l with
  | [] => []
  | d :: _ =>
      aquicksort d (List.length l) true (npy_get_msb (List.length l) * 2) l
  end.

(** [df.sort_values(by=key, ascending=...)], as pandas' [nargsort] does it:
    the NaN rows are set aside and put last; for a descending sort the rows
    are reversed before and after the ascending argsort. *)
Definition sort_values (ascending : bool) (l : list A) : list A :=
  let non_nans := filter (fun r => negb (isnan (key r))) l in
  let nans := filter (fun r => isnan (key r)) l in
  (if ascending then argsort non_nans
   else rev (argsort (rev non_nans))) ++ nans.

End Sorting.

End Pandas.

Import Pandas.

(** ** The four input tables *)

Record Influencer : Type := mkInfluencer {
  i_ID : option Z;
  i_name : option string;
  i_category : option string;
  i_platform : option string
}.

Record Post : Type := mkPost {
  p_influencer_id : option Z;
  p_platform : option string;
  p_date : option string;
  p_reach : option Z;
  p_likes : option Z;
  p_comments : option Z
}.

(** A date cell of the tracking file as [pd.to_datetime] sees it. *)
Inductive date_cell : Type :=
| Timestamp (ns : Z)
| NaT
| Unparseable (text : string).

Record TrackingRecord : Type := mkTracking {
  t_influencer_id : option Z;
  t_date : date_cell;
  t_source : string;
  t_revenue : option Qc
}.

Record PayoutRecord : Type := mkPayout {
  pay_influencer_id : option Z;
  pay_total_payout : option Qc
}.

(** ** A row of [campaign_data] *)

Record Row : Type := mkRow {
  influencer_id : option Z;
  date : date_cell;
  source : string;
  revenue : option Qc;
  ID : option Z;
  name : option string;
  category : option string;
  platform : option string;
  total_payout : option Qc
}.

(** [pd.merge(tracking_df, influencers_df, left_on='influencer_id',
    right_on='ID', how='left')] *)
Definition join_influencer (t : TrackingRecord) (i : option Influencer) : Row :=
  {| influencer_id := t_influencer_id t;
     date := t_date t;
     source := t_source t;
     revenue := t_revenue t;
     ID := match i with Some x => i_ID x | None => None end;
     name := match i with Some x => i_name x | None => None end;
     category := match i with Some x => i_category x | None => None end;
     platform := match i with Some x => i_platform x | None => None end;
     total_payout := None |}.

Definition merge_influencers (tracking_df : list TrackingRecord)
    (influencers_df : list Influencer) : list Row :=
  merge_left (fun t i => key_eqb (t_influencer_id t) (i_ID i))
             join_influencer tracking_df influencers_df.

(** [pd.merge(campaign_data, payouts_df, on='influencer_id', how='left')] *)
Definition join_payout (r : Row) (p : option PayoutRecord) : Row :=
  {| influencer_id := influencer_id r;
     date := date r;
     source := source r;
     revenue := revenue r;
     ID := ID r;
     name := name r;
     category := category r;
     platform := platform r;
     total_payout := match p with
                     | Some x => pay_total_payout x
                     | None => None
                     end |}.

Definition merge_payouts (campaign_data : list Row)
    (payouts_df : list PayoutRecord) : list Row :=
  merge_left (fun r p => key_eqb (influencer_id r) (pay_influencer_id p))
             join_payout campaign_data payouts_df.

(** The four [fillna(..., inplace=True)] statements, in the script's order;
    each one writes through to its column of [campaign_data]. *)
Definition fill_category (r : Row) : Row :=
  {| influencer_id := influencer_id r; date := date r; source := source r;
     revenue := revenue r; ID := ID r; name := name r;
     category := fillna "Organic" (category r);
     platform := platform r; total_payout := total_payout r |}.

Definition fill_platform (r : Row) : Row :=
  {| influencer_id := influencer_id r; date := date r; source := source r;
     revenue := revenue r; ID := ID r; name := name r;
     category := category r;
     platform := fillna "Organic" (platform r);
     total_payout := total_payout r |}.

Definition fill_total_payout (r : Row) : Row :=
  {| influencer_id := influencer_id r; date := date r; source := source r;
     revenue := revenue r; ID := ID r; name := name r;
     category := category r; platform := platform r;
     total_payout := fillna 0%Qc (total_payout r) |}.

Definition fill_revenue (r : Row) : Row :=
  {| influencer_id := influencer_id r; date := date r; source := source r;
     revenue := fillna 0%Qc (revenue r);
     ID := ID r; name := name r;
     category := category r; platform := platform r;
     total_payout := total_payout r |}.

Definition fill_row (r : Row) : Row :=
  fill_revenue (fill_total_payout (fill_platform (fill_category r))).

(** Lines 28-35: the joined and filled table, before the dates are parsed. *)
Definition join_and_fill (tracking_df : list TrackingRecord)
    (influencers_df : list Influencer) (payouts_df : list PayoutRecord)
    : list Row :=
  map fill_row (merge_payouts (merge_influencers tracking_df influencers_df)
                              payouts_df).

(** ** Exceptions and results *)

Inductive exn : Type :=
| FileNotFoundError
| DateParseError
| ValueError (msg : string).

Inductive result (A : Type) : Type :=
| Ok (a : A)
| Raise (e : exn).
Arguments Ok {A} a.
Arguments Raise {A} e.

(** Line 36: [pd.to_datetime] raises on a date it cannot parse and leaves the
    other cells as timestamps or NaT. *)
Definition unparseable (r : Row) : bool :=
  match date r with
  | Unparseable _ => true
  | _ => false
  end.

Definition to_datetime (rows : list Row) : result (list Row) :=
  if existsb unparseable rows then Raise DateParseError else Ok rows.

(** Lines 28-36. *)
Definition campaign_data (tracking_df : list TrackingRecord)
    (influencers_df : list Influencer) (payouts_df : list PayoutRecord)
    : result (list Row) :=
  to_datetime (join_and_fill tracking_df influencers_df payouts_df).

(** ** The sidebar filters *)

(** What the three sidebar widgets return. [date_range] is the tuple of
    [st.date_input]: calendar days, none, one or two of them. *)
Record Filters : Type := mkFilters {
  date_range : list Z;
  selected_categories : list string;
  selected_platforms : list string
}.

Definition ns_per_day : Z := 86400000000000.

(** [pd.Timestamp(d)] of a calendar day: its midnight. *)
Definition pd_Timestamp (day : Z) : Z := day * ns_per_day.

(** [filtered_df['date'] >= t] and [<= t]: false on NaT. *)
Definition date_ge (c : date_cell) (t : Z) : bool :=
  match c with
  | Timestamp ns => Z.leb t ns
  | _ => false
  end.

Definition date_le (c : date_cell) (t : Z) : bool :=
  match c with
  | Timestamp ns => Z.leb ns t
  | _ => false
  end.

Definition in_categories (f : Filters) (r : Row) : bool :=
  isin (category r) (selected_categories f).

Definition in_platforms (f : Filters) (r : Row) : bool :=
  isin (platform r) (selected_platforms f).

Definition in_dates (start_date end_date : Z) (r : Row) : bool :=
  date_ge (date r) (pd_Timestamp start_date)
  && date_le (date r) (pd_Timestamp end_date).

(** Lines 64-68: the copy and the two [isin] filters, each skipped when
    'All' is among the selected values. *)
Definition category_platform_filtered (campaign_data : list Row)
    (f : Filters) : list Row :=
  let df0 := campaign_data in
  let df1 := if negb (contains "All" (selected_categories f))
             then filter (in_categories f) df0 else df0 in
  if negb (contains "All" (selected_platforms f))
  then filter (in_platforms f) df1 else df1.

(** Lines 64-71. The tuple assignment [start_date, end_date = date_range]
    raises ValueError unless the tuple has exactly two elements. *)
Definition filtered_df (campaign_data : list Row) (f : Filters)
    : result (list Row) :=
  let df2 := category_platform_filtered campaign_data f in
  match date_range f with
  | [] => Ok df2
  | [start_date; end_date] => Ok (filter (in_dates start_date end_date) df2)
  | [_] => Raise (ValueError "not enough values to unpack (expected 2, got 1)")
  | _ => Raise (ValueError "too many values to unpack (expected 2)")
  end.

(** The two frames the filter block of the script touches. *)
Record Frames : Type := mkFrames {
  campaign_data_var : list Row;
  filtered_df_var : list Row
}.

(** The filter block as a step on the script's variables: it assigns
    [filtered_df] only, and an exception in the tuple assignment leaves it
    as the two [isin] filters made it. *)
Definition filter_step (f : Filters) (s : Frames) : Frames * option exn :=
  match filtered_df (campaign_data_var s) f with
  | Ok df => ({| campaign_data_var := campaign_data_var s;
                 filtered_df_var := df |}, None)
  | Raise e =>
      ({| campaign_data_var := campaign_data_var s;
          filtered_df_var :=
            category_platform_filtered (campaign_data_var s) f |}, Some e)
  end.

Definition and_then {A B : Type} (r : result A) (k : A -> result B)
    : result B :=
  match r with
  | Ok a => k a
  | Raise e => Raise e
  end.

(** ** The KPI block (lines 75-82) *)

Definition total_revenue (df : list Row) : Qc := sum (map revenue df).

Definition total_payout_sum (df : list Row) : Qc := sum (map total_payout df).

Definition organic_revenue_baseline (tracking_df : list TrackingRecord) : Qc :=
  sum (map t_revenue
           (filter (fun t => String.eqb (t_source t) "organic") tracking_df)).

Definition influencer_revenue (df : list Row) : Qc :=
  sum (map revenue (filter (fun r => String.eqb (source r) "influencer") df)).

Definition roi (df : list Row) : Qc :=
  if Qcltb 0%Qc (total_payout_sum df)
  then ((total_revenue df - total_payout_sum df) / total_payout_sum df)%Qc
  else 0%Qc.

Definition incremental_roas (tracking_df : list TrackingRecord)
    (df : list Row) : Qc :=
  if Qcltb 0%Qc (total_payout_sum df)
  then ((influencer_revenue df - organic_revenue_baseline tracking_df)
        / total_payout_sum df)%Qc
  else 0%Qc.

Record KPIs : Type := mkKPIs {
  kpi_total_revenue : Qc;
  kpi_total_payout : Qc;
  kpi_roi : Qc;
  kpi_incremental_roas : Qc
}.

Definition kpis (tracking_df : list TrackingRecord) (df : list Row) : KPIs :=
  {| kpi_total_revenue := total_revenue df;
     kpi_total_payout := total_payout_sum df;
     kpi_roi := roi df;
     kpi_incremental_roas := incremental_roas tracking_df df |}.

(** ** Grouped aggregation *)

(** One row of [df.groupby(col).agg(total_revenue=('revenue', 'sum'),
    total_payout=('total_payout', 'sum')).reset_index()]. *)
Record Group (K : Type) : Type := mkGroup {
  g_key : K;
  g_total_revenue : Qc;
  g_total_payout : Qc
}.
Arguments mkGroup {K} _ _ _.
Arguments g_key {K} _.
Arguments g_total_revenue {K} _.
Arguments g_total_payout {K} _.

Section GroupBy.
Context {K : Type}.
Variable col : Row -> option K.
Variables eqb ltb : K -> K -> bool.

(** The group keys come out sorted and without repetition. *)
Fixpoint insert_key (k : K) (ks : list K) : list K :=
  match ks with
  | [] => [k]
  | k' :: ks' => if eqb k k' then ks
                 else if ltb k k' then k :: ks
                 else k' :: insert_key k ks'
  end.

(** A row whose key cell is missing belongs to no group ([dropna=True], the
    default of [groupby]). *)
Definition group_keys (df : list Row) : list K :=
  fold_right (fun r ks => match col r with
                          | Some k => insert_key k ks
                          | None => ks
                          end) [] df.

Definition in_group (k : K) (r : Row) : bool :=
  match col r with
  | Some k' => eqb k k'
  | None => false
  end.

Definition groupby_agg (df : list Row) : list (Group K) :=
  map (fun k => let members := filter (in_group k) df in
                {| g_key := k;
                   g_total_revenue := sum (map revenue members);
                   g_total_payout := sum (map total_payout members) |})
      (group_keys df).

End GroupBy.

Definition groupby_category : list Row -> list (Group string) :=
  groupby_agg category String.eqb String.ltb.

Definition groupby_platform : list Row -> list (Group string) :=
  groupby_agg platform String.eqb String.ltb.

Definition groupby_ID : list Row -> list (Group Z) :=
  groupby_agg ID Z.eqb Z.ltb.

(** A grouped row with its ROI column. *)
Record Perf (K : Type) : Type := mkPerf {
  pf_key : K;
  pf_total_revenue : Qc;
  pf_total_payout : Qc;
  pf_ROI : float
}.
Arguments mkPerf {K} _ _ _ _.
Arguments pf_key {K} _.
Arguments pf_total_revenue {K} _.
Arguments pf_total_payout {K} _.
Arguments pf_ROI {K} _.

(** [g['ROI'] = (g['total_revenue'] - g['total_payout']) / g['total_payout']] *)
Definition add_ROI {K : Type} (g : Group K) : Perf K :=
  {| pf_key := g_key g;
     pf_total_revenue := g_total_revenue g;
     pf_total_payout := g_total_payout g;
     pf_ROI := truediv (g_total_revenue g - g_total_payout g)%Qc
                       (g_total_payout g) |}.

(** [replace([np.inf, -np.inf], np.nan, inplace=True)] followed by
    [fillna(0, inplace=True)]: of the columns of a grouped row only ROI can
    be infinite or NaN. *)
Definition replace_and_fill {K : Type} (p : Perf K) : Perf K :=
  {| pf_key := pf_key p;
     pf_total_revenue := pf_total_revenue p;
     pf_total_payout := pf_total_payout p;
     pf_ROI := fillna0 (replace_inf (pf_ROI p)) |}.

(** Lines 131-135: the table behind the "ROI by Influencer Category" chart. *)
Definition category_revenue (df : list Row) : list (Perf string) :=
  map add_ROI (groupby_category df).

(** Lines 118: the table behind the "Revenue by Platform" chart. *)
Definition platform_revenue (df : list Row) : list (string * Qc) :=
  map (fun g => (g_key g, g_total_revenue g)) (groupby_platform df).

(** Lines 212-218 and 221-227 of the report. *)
Definition category_performance (df : list Row) : list (Perf string) :=
  map replace_and_fill (map add_ROI (groupby_category df)).

Definition platform_performance (df : list Row) : list (Perf string) :=
  map replace_and_fill (map add_ROI (groupby_platform df)).

(** ** Per-influencer performance and the leaderboard *)

(** A row of [influencer_performance] after the merge with the roster. *)
Record InfluencerPerf : Type := mkInfluencerPerf {
  ip_ID : Z;
  ip_total_revenue : Qc;
  ip_total_payout : Qc;
  ip_ROI : float;
  ip_name : option string;
  ip_category : option string;
  ip_platform : option string
}.

Definition join_roster (p : Perf Z) (i : Influencer) : InfluencerPerf :=
  {| ip_ID := pf_key p;
     ip_total_revenue := pf_total_revenue p;
     ip_total_payout := pf_total_payout p;
     ip_ROI := pf_ROI p;
     ip_name := i_name i;
     ip_category := i_category i;
     ip_platform := i_platform i |}.

(** Lines 148-157 (and 242-249 in the report): group on ID, add ROI, replace
    and fill, then [pd.merge(..., influencers_df[[...]], on='ID')]. *)
Definition influencer_performance_merged (df : list Row)
    (influencers_df : list Influencer) : list InfluencerPerf :=
  merge_inner (fun p i => key_eqb (Some (pf_key p)) (i_ID i)) join_roster
              (map replace_and_fill (map add_ROI (groupby_ID df)))
              influencers_df.

(** Line 158: [sort_values(by='ROI', ascending=False)]. *)
Definition influencer_performance (df : list Row)
    (influencers_df : list Influencer) : list InfluencerPerf :=
  sort_values ip_ROI false (influencer_performance_merged df influencers_df).

(** Lines 165 and 174: the two leaderboard tables of the dashboard. *)
Definition top_10 (df : list Row) (influencers_df : list Influencer)
    : list InfluencerPerf :=
  head 10 (influencer_performance df influencers_df).

Definition poor_performing (df : list Row) (influencers_df : list Influencer)
    : list InfluencerPerf :=
  tail 10 (influencer_performance df influencers_df).

(** ** The generated report (lines 195-263) *)

(** The values the report's f-strings print, section by section. *)
Record Report : Type := mkReport {
  total_revenue_val : Qc;
  total_payout_val : Qc;
  roi_val : Qc;
  incremental_roas_val : Qc;
  top_categories : list (Perf string);
  top_platforms : list (Perf string);
  top_influencers : list InfluencerPerf;
  poor_influencers : list InfluencerPerf
}.

(** The organic term of line 203, read from the frame the report is given. *)
Definition report_organic_revenue (df : list Row) : Qc :=
  sum (map revenue (filter (fun r => String.eqb (source r) "organic") df)).

Definition not_Organic (p : Perf string) : bool :=
  negb (String.eqb (pf_key p) "Organic").

Definition generate_detailed_report (df : list Row)
    (influencers_df : list Influencer) : Report :=
  let total_revenue_val := sum (map revenue df) in
  let total_payout_val := sum (map total_payout df) in
  let roi_val :=
    if Qcltb 0%Qc total_payout_val
    then ((total_revenue_val - total_payout_val) / total_payout_val)%Qc
    else 0%Qc in
  let incremental_roas_val :=
    if Qcltb 0%Qc total_payout_val
    then ((influencer_revenue df - report_organic_revenue df)
          / total_payout_val)%Qc
    else 0%Qc in
  let top_categories :=
    head 3 (sort_values pf_ROI false (category_performance df)) in
  let top_platforms :=
    head 3 (sort_values pf_ROI false (platform_performance df)) in
  let influencer_performance :=
    influencer_performance_merged df influencers_df in
  {| total_revenue_val := total_revenue_val;
     total_payout_val := total_payout_val;
     roi_val := roi_val;
     incremental_roas_val := incremental_roas_val;
     top_categories := filter not_Organic top_categories;
     top_platforms := filter not_Organic top_platforms;
     top_influencers := head 3 (sort_values ip_ROI false influencer_performance);
     poor_influencers := head 3 (sort_values ip_ROI true influencer_performance)
  |}.

(** ** The script as a whole: what it renders and how it ends *)

Record PostRow : Type := mkPostRow {
  pr_name : option string;
  pr_platform_x : option string;
  pr_date : option string;
  pr_reach : option Z;
  pr_likes : option Z;
  pr_comments : option Z
}.

Inductive Figure : Type :=
| fig_time (rows : list (Group Z))
| fig_platform (rows : list (string * Qc))
| fig_category (rows : list (Perf string)).

(** The streamlit calls of the script, with the data each one is given (labels
    are written without their emoji). *)
Inductive Element : Type :=
| st_title (body : string)
| st_markdown (body : string)
| st_write (body : string)
| st_error (body : string)
| st_header (body : string)
| st_subheader (body : string)
| st_sidebar_header (body : string)
| st_date_input (label : string) (value : date_cell * date_cell)
| st_multiselect (label : string) (options : list (option string))
| st_metric (label : string) (value : Qc)
| st_plotly_chart (fig : Figure)
| st_dataframe (rows : list InfluencerPerf)
| st_dataframe_posts (rows : list PostRow)
| st_button (label : string)
| st_report (report_text : Report)
| st_download_button (label : string) (data : Report).

(** How a run of the script ends: it reaches its last line, [st.stop()] ends
    it, or an exception nobody catches does. *)
Inductive outcome (A : Type) : Type :=
| Done (a : A)
| Stopped
| Uncaught (e : exn).
Arguments Done {A} a.
Arguments Stopped {A}.
Arguments Uncaught {A} e.

(** A piece of the script: the elements it renders, in order, and its end. *)
Definition Script (A : Type) : Type := list Element * outcome A.

Definition ret {A : Type} (a : A) : Script A := ([], Done a).

Definition bind {A B : Type} (m : Script A) (k : A -> Script B) : Script B :=
  match m with
  | (page, Done a) => let (page', r) := k a in ((page ++ page')%list, r)
  | (page, Stopped) => (page, Stopped)
  | (page, Uncaught e) => (page, Uncaught e)
  end.

Notation "x <- m ;; k" := (bind m (fun x => k))
  (at level 61, m at next level, right associativity).
Notation "m ;;; k" := (bind m (fun _ => k))
  (at level 61, right associativity).

Definition render (e : Element) : Script unit := ([e], Done tt).
Definition st_stop {A : Type} : Script A := ([], Stopped).
Definition run_result {A : Type} (r : result A) : Script A :=
  match r with
  | Ok a => ret a
  | Raise e => ([], Uncaught e)
  end.

(** The working directory: each CSV file is there or not. *)
Record Files : Type := mkFiles {
  influencers_csv : option (list Influencer);
  posts_csv : option (list Post);
  tracking_data_csv : option (list TrackingRecord);
  payouts_csv : option (list PayoutRecord)
}.

Record Tables : Type := mkTables {
  influencers_df : list Influencer;
  posts_df : list Post;
  tracking_df : list TrackingRecord;
  payouts_df : list PayoutRecord
}.

Definition read_csv {A : Type} (file : option (list A)) : result (list A) :=
  match file with
  | Some table => Ok table
  | None => Raise FileNotFoundError
  end.

(** The body of the [try] (lines 19-22): the four reads, in order. *)
Definition read_all (fs : Files) : result Tables :=
  match read_csv (influencers_csv fs) with
  | Raise e => Raise e
  | Ok i =>
    match read_csv (posts_csv fs) with
    | Raise e => Raise e
    | Ok p =>
      match read_csv (tracking_data_csv fs) with
      | Raise e => Raise e
      | Ok t =>
        match read_csv (payouts_csv fs) with
        | Raise e => Raise e
        | Ok y => Ok {| influencers_df := i; posts_df := p;
                        tracking_df := t; payouts_df := y |}
        end
      end
    end
  end.

(** Lines 18-25: [except FileNotFoundError: st.error(...); st.stop()]. *)
Definition ingest (fs : Files) : Script Tables :=
  match read_all fs with
  | Ok tables => ret tables
  | Raise FileNotFoundError =>
      render (st_error
        "CSV files not found. Please run the data generation script first.") ;;;
      st_stop
  | Raise e => ([], Uncaught e)
  end.

(** What the user has set in the browser when the script runs. *)
Record Widgets : Type := mkWidgets {
  w_filters : Filters;
  w_button : bool
}.

(** [Series.min()] and [Series.max()] of the date column: NaT when there is
    no timestamp. *)
Definition date_min (df : list Row) : date_cell :=
  fold_right (fun r acc => match date r, acc with
                           | Timestamp a, Timestamp b => Timestamp (Z.min a b)
                           | Timestamp a, _ => Timestamp a
                           | _, _ => acc
                           end) NaT df.

Definition date_max (df : list Row) : date_cell :=
  fold_right (fun r acc => match date r, acc with
                           | Timestamp a, Timestamp b => Timestamp (Z.max a b)
                           | Timestamp a, _ => Timestamp a
                           | _, _ => acc
                           end) NaT df.

(** [['All'] + list(col.unique())]: the values in order of first
    appearance. *)
Definition option_string_eqb (a b : option string) : bool :=
  match a, b with
  | Some x, Some y => String.eqb x y
  | None, None => true
  | _, _ => false
  end.

Definition unique (cells : list (option string)) : list (option string) :=
  rev (fold_left (fun seen c => if existsb (option_string_eqb c) seen
                                then seen else c :: seen) cells []).

(** [filtered_df['date'].dt.date]: the calendar day of a timestamp. *)
Definition dt_date (r : Row) : option Z :=
  match date r with
  | Timestamp ns => Some (ns / ns_per_day)%Z
  | _ => None
  end.

Definition time_series_data (df : list Row) : list (Group Z) :=
  groupby_agg dt_date Z.eqb Z.ltb df.

(** Line 183: posts joined with the roster, then the six displayed columns. *)
Definition post_performance (posts : list Post) (roster : list Influencer)
    : list PostRow :=
  merge_left (fun p i => key_eqb (p_influencer_id p) (i_ID i))
             (fun p i => {| pr_name := match i with
                                       | Some x => i_name x
                                       | None => None
                                       end;
                            pr_platform_x := p_platform p;
                            pr_date := p_date p;
                            pr_reach := p_reach p;
                            pr_likes := p_likes p;
                            pr_comments := p_comments p |})
             posts roster.

(** The script, top to bottom. *)
Definition dashboard (fs : Files) (w : Widgets) : Script unit :=
  render (st_title "Influencer Campaign Analytics") ;;;
  render (st_markdown "A deep-dive into campaign performance, influencer insights, and key metrics for HealthKart.") ;;;
  render (st_write "---") ;;;
  t <- ingest fs ;;
  data <- run_result (campaign_data (tracking_df t) (influencers_df t)
                                    (payouts_df t)) ;;
  render (st_sidebar_header "Filter Campaigns") ;;;
  render (st_date_input "Select Date Range:" (date_min data, date_max data)) ;;;
  render (st_multiselect "Select Influencer Categories:"
            (Some "All" :: unique (map i_category (influencers_df t)))) ;;;
  render (st_multiselect "Select Platforms:"
            (Some "All" :: unique (map i_platform (influencers_df t)))) ;;;
  df <- run_result (filtered_df data (w_filters w)) ;;
  render (st_header "Campaign Overview") ;;;
  render (st_metric "Total Revenue" (total_revenue df)) ;;;
  render (st_metric "Total Payouts" (total_payout_sum df)) ;;;
  render (st_metric "ROI" (roi df)) ;;;
  render (st_metric "Incremental ROAS" (incremental_roas (tracking_df t) df)) ;;;
  render (st_write "---") ;;;
  render (st_header "Detailed Performance") ;;;
  render (st_subheader "Revenue & Payouts Over Time") ;;;
  render (st_plotly_chart (fig_time (time_series_data df))) ;;;
  render (st_subheader "Revenue by Platform") ;;;
  render (st_plotly_chart (fig_platform (platform_revenue df))) ;;;
  render (st_subheader "Performance by Category") ;;;
  render (st_plotly_chart (fig_category (category_revenue df))) ;;;
  render (st_subheader "Influencer Leaderboard") ;;;
  render (st_markdown "#### Top 10 Influencers by ROI") ;;;
  render (st_dataframe (top_10 df (influencers_df t))) ;;;
  render (st_markdown "#### Poor Performing Influencers") ;;;
  render (st_dataframe (poor_performing df (influencers_df t))) ;;;
  render (st_write "---") ;;;
  render (st_header "Post-Level Performance") ;;;
  render (st_dataframe_posts (post_performance (posts_df t) (influencers_df t))) ;;;
  render (st_header "Generate Detailed Insight Report") ;;;
  render (st_button "Generate Detailed Report") ;;;
  if w_button w then
    let report_text := generate_detailed_report df (influencers_df t) in
    render (st_report report_text) ;;;
    render (st_download_button "Download Report as Text" report_text)
  else ret tt.

(** ** Vocabulary of the statements *)

(** Equality of floats as [df.replace] and the sort see it: NaN cells are
    treated alike. *)
Definition float_eqb (x y : float) : bool :=
  match x, y with
  | Fin a, Fin b => Qceqb a b
  | PInf, PInf => true
  | NInf, NInf => true
  | NaN, NaN => true
  | _, _ => false
  end.

(** The orders and tie classes a sort on [key] is judged by. *)
Definition key_le {A : Type} (key : A -> float) (a b : A) : Prop :=
  float_leb (key a) (key b) = true.
Definition key_ge {A : Type} (key : A -> float) (a b : A) : Prop :=
  float_leb (key b) (key a) = true.
Definition not_nan {A : Type} (key : A -> float) (r : A) : Prop :=
  isnan (key r) = false.

(** [a] is not greater than [b] in numpy's comparison: [b] is not less than
    [a]. *)
Definition le_by {A : Type} (key : A -> float) (a b : A) : Prop :=
  less_by key b a = false.

(** The heap condition at node [k] of the first [n] cells of [a]: neither
    child is greater than the node. *)
Definition heap_at {A : Type} (key : A -> float) (d : A) (a : list A)
    (n k : nat) : Prop :=
  ((2 * k <= n)%nat -> le_by key (get1 d a (2 * k)) (get1 d a k)) /\
  ((2 * k + 1 <= n)%nat -> le_by key (get1 d a (2 * k + 1)) (get1 d a k)).

(** ** Example data *)

Definition rupees (n : Z) : Qc := Q2Qc (inject_Z n).

(** A rational in lowest terms, to read computed amounts off. *)
Definition to_Q (q : Qc) : Q := this q.

(** The end-to-end scenario: one influencer row, one organic row. *)
Module Scenario.

Definition tracking : list TrackingRecord :=
  [ mkTracking (Some 1%Z) (Timestamp 0) "influencer" (Some (rupees 100));
    mkTracking None (Timestamp 0) "organic" (Some (rupees 50)) ].

Definition roster : list Influencer :=
  [ mkInfluencer (Some 1%Z) (Some "X") (Some "Beauty") (Some "Instagram") ].

Definition payouts : list PayoutRecord :=
  [ mkPayout (Some 1%Z) (Some (rupees 40)) ].

Definition unified : list Row := join_and_fill tracking roster payouts.

Definition no_filter : Filters := mkFilters [] ["All"] ["All"].
Definition beauty_only : Filters := mkFilters [] ["Beauty"] ["All"].

Definition beauty_rows : list Row := filter (in_categories beauty_only) unified.

End Scenario.

(** A tracking row whose influencer is not in the roster but has a payout. *)
Module Orphan.

Definition tracking_row : TrackingRecord :=
  mkTracking (Some 7%Z) (Timestamp 0) "influencer" (Some (rupees 10)).

Definition roster : list Influencer :=
  [ mkInfluencer (Some 1%Z) (Some "X") (Some "Beauty") (Some "Instagram") ].

Definition payouts : list PayoutRecord :=
  [ mkPayout (Some 7%Z) (Some (rupees 40)) ].

End Orphan.

(** The vocabulary of the join properties. *)
Definition no_matching_influencer (t : TrackingRecord)
    (roster : list Influencer) : Prop :=
  Forall (fun i => key_eqb (t_influencer_id t) (i_ID i) = false) roster.

Definition no_matching_payout (t : TrackingRecord)
    (payouts : list PayoutRecord) : Prop :=
  Forall (fun p => key_eqb (t_influencer_id t) (pay_influencer_id p) = false)
         payouts.

Definition complete (r : Row) : Prop :=
  category r <> None /\ platform r <> None /\
  total_payout r <> None /\ revenue r <> None.

(** The predicate a row has to pass, the three conditions taken together. *)
Definition passes (f : Filters) (r : Row) : bool :=
  (contains "All" (selected_categories f) || in_categories f r)
  && (contains "All" (selected_platforms f) || in_platforms f r)
  && match date_range f with
     | [start_date; end_date] => in_dates start_date end_date r
     | _ => true
     end.

(** What the script has rendered when it reaches the [try] block. *)
Definition banner : list Element :=
  [ st_title "Influencer Campaign Analytics";
    st_markdown "A deep-dive into campaign performance, influencer insights, and key metrics for HealthKart.";
    st_write "---" ].

Definition missing_files_error : Element :=
  st_error "CSV files not found. Please run the data generation script first.".







(** Three influencers in roster order A, B, C with ROI 0.5, 0.5 and 0.9. *)
Module Ranking.

Definition roster : list Influencer :=
  [ mkInfluencer (Some 1%Z) (Some "A") (Some "Fitness") (Some "YouTube");
    mkInfluencer (Some 2%Z) (Some "B") (Some "Fitness") (Some "Instagram");
    mkInfluencer (Some 3%Z) (Some "C") (Some "Beauty") (Some "Instagram") ].

Definition tracking : list TrackingRecord :=
  [ mkTracking (Some 1%Z) (Timestamp 0) "influencer" (Some (rupees 60));
    mkTracking (Some 2%Z) (Timestamp 0) "influencer" (Some (rupees 150));
    mkTracking (Some 3%Z) (Timestamp 0) "influencer" (Some (rupees 190)) ].

Definition payouts : list PayoutRecord :=
  [ mkPayout (Some 1%Z) (Some (rupees 40));
    mkPayout (Some 2%Z) (Some (rupees 100));
    mkPayout (Some 3%Z) (Some (rupees 100)) ].

Definition unified : list Row := join_and_fill tracking roster payouts.


(** The same data without influencer B: a population of two. *)
Definition two_tracking : list TrackingRecord :=
  [ mkTracking (Some 1%Z) (Timestamp 0) "influencer" (Some (rupees 60));
    mkTracking (Some 3%Z) (Timestamp 0) "influencer" (Some (rupees 190)) ].

Definition two_unified : list Row := join_and_fill two_tracking roster payouts.

End Ranking.

(** Eighteen influencers with the same ROI 0.5, in roster order 1 to 18. *)
Module Tied.

Definition ids : list Z := map Z.of_nat (seq 1 18).

Definition roster : list Influencer :=
  map (fun z => mkInfluencer (Some z) (Some "T") (Some "Fitness")
                             (Some "YouTube")) ids.

Definition tracking : list TrackingRecord :=
  map (fun z => mkTracking (Some z) (Timestamp 0) "influencer"
                           (Some (rupees 150))) ids.

Definition payouts : list PayoutRecord :=
  map (fun z => mkPayout (Some z) (Some (rupees 100))) ids.

Definition unified : list Row := join_and_fill tracking roster payouts.

End Tied.

(** One of the four CSV files is absent. *)
Definition some_file_missing (fs : Files) : Prop :=
  influencers_csv fs = None \/ posts_csv fs = None \/
  tracking_data_csv fs = None \/ payouts_csv fs = None.

(** The roster entry and the payout record a tracking record is joined with
    when keys are not repeated: the first (and then only) match. *)
Definition roster_entry (roster : list Influencer) (t : TrackingRecord)
    : option Influencer :=
  find (fun i => key_eqb (t_influencer_id t) (i_ID i)) roster.

Definition payout_entry (payouts : list PayoutRecord) (t : TrackingRecord)
    : option PayoutRecord :=
  find (fun p => key_eqb (t_influencer_id t) (pay_influencer_id p)) payouts.

Definition unified_row (roster : list Influencer)
    (payouts : list PayoutRecord) (t : TrackingRecord) : Row :=
  fill_row (join_payout (join_influencer t (roster_entry roster t))
                        (payout_entry payouts t)).

(** How many rows a left merge makes of one left row. *)
Definition copies {L R : Type} (matches : L -> R -> bool) (right : list R)
    (l : L) : nat :=
  Nat.max 1 (List.length (filter (matches l) right)).


(** Three tracking rows of influencer 1 of the scenario. *)
Module Repeated.

Definition tracking : list TrackingRecord :=
  [ mkTracking (Some 1%Z) (Timestamp 0) "influencer" (Some (rupees 10));
    mkTracking (Some 1%Z) (Timestamp 0) "influencer" (Some (rupees 20));
    mkTracking (Some 1%Z) (Timestamp 0) "influencer" (Some (rupees 30)) ].

End Repeated.




(** A tracking record whose date [pd.to_datetime] cannot parse. *)
Definition bad_date (t : TrackingRecord) : bool :=
  match t_date t with
  | Unparseable _ => true
  | _ => false
  end.

(** The four sidebar elements, as the script renders them from the unified
    table and the roster. *)
Definition sidebar (data : list Row) (roster : list Influencer)
    : list Element :=
  [ st_sidebar_header "Filter Campaigns";
    st_date_input "Select Date Range:" (date_min data, date_max data);
    st_multiselect "Select Influencer Categories:"
                   (Some "All" :: unique (map i_category roster));
    st_multiselect "Select Platforms:"
                   (Some "All" :: unique (map i_platform roster)) ].

(** The date tuple unpacks: it is empty or a pair. *)
Definition unpacks (f : Filters) : Prop :=
  (List.length (date_range f) = 0 \/ List.length (date_range f) = 2)%nat.

(** * Properties *)

(** ** Facts about the numeric cells *)

Lemma Qceqb_eq (x y : Qc) : Qceqb x y = true <-> x = y.
Proof.
  unfold Qceqb. rewrite Qeq_bool_iff. split.
  - apply Qc_is_canon.
  - intros ->. reflexivity.
Qed.

Lemma Qcleb_total (x y : Qc) : Qcleb x y = false -> Qcleb y x = true.
Proof.
  unfold Qcleb. intros H. apply Qle_bool_iff.
  apply Qlt_le_weak, Qnot_le_lt. intros Hle.
  apply Qle_bool_iff in Hle. congruence.
Qed.

Lemma Qcleb_trans (x y z : Qc) :
  Qcleb x y = true -> Qcleb y z = true -> Qcleb x z = true.
Proof.
  unfold Qcleb. rewrite !Qle_bool_iff. apply Qle_trans.
Qed.

Lemma Qcleb_refl (x : Qc) : Qcleb x x = true.
Proof. unfold Qcleb. apply Qle_bool_iff, Qle_refl. Qed.

Lemma Qcltb_irrefl (x : Qc) : Qcltb x x = false.
Proof. unfold Qcltb. fold (Qcleb x x). now rewrite Qcleb_refl. Qed.

Lemma sum_app (l1 l2 : list (option Qc)) :
  sum (l1 ++ l2) = (sum l1 + sum l2)%Qc.
Proof.
  induction l1 as [|c l1 IH]; simpl.
  - ring.
  - destruct c; rewrite IH; ring.
Qed.

Lemma float_eqb_eq (x y : float) : float_eqb x y = true <-> x = y.
Proof.
  destruct x, y; simpl; try (split; [discriminate | congruence]);
    try (split; reflexivity).
  rewrite Qceqb_eq. split; congruence.
Qed.

Lemma float_leb_total (x y : float) :
  isnan x = false -> isnan y = false ->
  float_leb x y = false -> float_leb y x = true.
Proof.
  destruct x, y; simpl; try discriminate; try reflexivity.
  intros _ _. apply Qcleb_total.
Qed.

Lemma float_leb_trans (x y z : float) :
  float_leb x y = true -> float_leb y z = true -> float_leb x z = true.
Proof.
  destruct x, y, z; simpl; try discriminate; try reflexivity.
  apply Qcleb_trans.
Qed.

Lemma float_leb_same (x y k : float) :
  isnan k = false ->
  float_eqb x k = true -> float_eqb y k = true -> float_leb x y = true.
Proof.
  intros Hk Hx Hy. apply float_eqb_eq in Hx, Hy. subst x y.
  destruct k; simpl in *; try reflexivity; try discriminate.
  apply Qcleb_refl.
Qed.

Lemma truediv_zero (a : Qc) : is_finite (truediv a 0%Qc) = false.
Proof.
  unfold truediv. replace (Qceqb 0%Qc 0%Qc) with true
    by (symmetry; now apply Qceqb_eq).
  destruct (Qceqb a 0%Qc); [reflexivity|].
  destruct (Qcltb 0%Qc a); reflexivity.
Qed.

Lemma fillna0_replace_inf_finite (x : float) :
  is_finite (fillna0 (replace_inf x)) = true.
Proof. destruct x; reflexivity. Qed.

Lemma fillna0_replace_inf_zero (a : Qc) :
  fillna0 (replace_inf (truediv a 0%Qc)) = Fin 0%Qc.
Proof.
  pose proof (truediv_zero a) as H.
  destruct (truediv a 0%Qc); simpl in *; try reflexivity; discriminate.
Qed.

(** ** Facts about lists *)

Section ListFacts.
Context {A : Type}.

Lemma filter_twice (f : A -> bool) (l : list A) :
  filter f (filter f l) = filter f l.
Proof.
  induction l as [|x l IH]; simpl; [reflexivity|].
  destruct (f x) eqn:E; simpl; rewrite ?E, IH; reflexivity.
Qed.

Lemma filter_comm (f g : A -> bool) (l : list A) :
  filter f (filter g l) = filter g (filter f l).
Proof.
  induction l as [|x l IH]; simpl; [reflexivity|].
  destruct (f x) eqn:Ef, (g x) eqn:Eg; simpl; rewrite ?Ef, ?Eg, IH; reflexivity.
Qed.


Lemma filter_none (f : A -> bool) (l : list A) :
  Forall (fun x => f x = false) l -> filter f l = [].
Proof.
  induction 1 as [|x l Hx _ IH]; simpl; [reflexivity|].
  now rewrite Hx.
Qed.

Lemma filter_all (f : A -> bool) (l : list A) :
  Forall (fun x => f x = true) l -> filter f l = l.
Proof.
  induction 1 as [|x l Hx _ IH]; simpl; [reflexivity|].
  now rewrite Hx, IH.
Qed.

Lemma filter_split_Permutation (f : A -> bool) (l : list A) :
  Permutation (filter (fun x => negb (f x)) l ++ filter f l) l.
Proof.
  induction l as [|x l IH]; simpl; [constructor|].
  destruct (f x); simpl.
  - symmetry. apply Permutation_cons_app. now symmetry.
  - now constructor.
Qed.

Lemma StronglySorted_app (R : A -> A -> Prop) (l1 l2 : list A) :
  StronglySorted R l1 -> StronglySorted R l2 ->
  (forall a b, In a l1 -> In b l2 -> R a b) ->
  StronglySorted R (l1 ++ l2).
Proof.
  induction 1 as [|a l1 Hs IH Ha]; intros H2 Hc; simpl; [exact H2|].
  constructor.
  - apply IH; [exact H2|]. intros x y Hx Hy. apply Hc; [now right | exact Hy].
  - apply Forall_app. split; [exact Ha|].
    apply Forall_forall. intros y Hy. apply Hc; [now left | exact Hy].
Qed.

Lemma StronglySorted_rev (R : A -> A -> Prop) (l : list A) :
  StronglySorted R l -> StronglySorted (fun a b => R b a) (rev l).
Proof.
  induction 1 as [|a l Hs IH Ha]; simpl; [constructor|].
  apply StronglySorted_app.
  - exact IH.
  - repeat constructor.
  - intros x y Hx [<-|[]]. apply in_rev in Hx.
    rewrite Forall_forall in Ha. now apply Ha.
Qed.

Lemma head_all (n : nat) (l : list A) :
  (List.length l <= n)%nat -> head n l = l.
Proof. intros H. unfold head. now apply firstn_all2. Qed.

Lemma tail_all (n : nat) (l : list A) :
  (List.length l <= n)%nat -> tail n l = l.
Proof.
  intros H. unfold tail.
  replace (List.length l - n)%nat with 0%nat by lia. reflexivity.
Qed.

End ListFacts.

(** ** Facts about numpy's argsort *)

Section UpdateFacts.
Context {A : Type}.
Variable d : A.

Lemma length_update (i : nat) (x : A) (l : list A) :
  List.length (update i x l) = List.length l.
Proof.
  revert i. induction l as [|y l IH]; intros [|i]; simpl; auto.
Qed.

Lemma nth_update_eq (i : nat) (x : A) (l : list A) :
  (i < List.length l)%nat -> nth i (update i x l) d = x.
Proof.
  revert i. induction l as [|y l IH]; intros [|i]; simpl; intros H;
    try lia; auto. apply IH. lia.
Qed.

Lemma nth_update_neq (i k : nat) (x : A) (l : list A) :
  k <> i -> nth k (update i x l) d = nth k l d.
Proof.
  revert i k. induction l as [|y l IH]; intros [|i] [|k]; simpl; intros H;
    try congruence; auto.
Qed.

(** Writing [x] at [i] trades the old cell for [x]. *)
Lemma update_Permutation (i : nat) (x : A) (l : list A) :
  (i < List.length l)%nat ->
  Permutation (x :: l) (nth i l d :: update i x l).
Proof.
  revert i. induction l as [|y l IH]; intros [|i]; simpl; intros H; try lia.
  - apply perm_swap.
  - rewrite perm_swap. rewrite (IH i) by lia. apply perm_swap.
Qed.

Lemma update_same (i : nat) (l : list A) :
  update i (nth i l d) l = l.
Proof.
  revert i. induction l as [|y l IH]; intros [|i]; simpl; auto.
  now rewrite IH.
Qed.

Lemma update_update (i : nat) (x y : A) (l : list A) :
  update i x (update i y l) = update i x l.
Proof.
  revert i. induction l as [|z l IH]; intros [|i]; simpl; auto.
  now rewrite IH.
Qed.

Lemma length_INTP_SWAP (i j : nat) (l : list A) :
  List.length (INTP_SWAP d i j l) = List.length l.
Proof. unfold INTP_SWAP. now rewrite !length_update. Qed.

Lemma INTP_SWAP_Permutation (i j : nat) (l : list A) :
  (i < List.length l)%nat -> (j < List.length l)%nat ->
  Permutation (INTP_SWAP d i j l) l.
Proof.
  intros Hi Hj. unfold INTP_SWAP.
  destruct (Nat.eq_dec i j) as [->|Hij].
  - now rewrite update_update, update_same.
  - apply (Permutation_cons_inv (a := nth j l d)).
    rewrite (update_Permutation i (nth j l d) l Hi).
    rewrite (update_Permutation j (nth i l d) (update i (nth j l d) l))
      by now rewrite length_update.
    rewrite nth_update_neq by congruence. reflexivity.
Qed.

Lemma nth_INTP_SWAP_l (i j : nat) (l : list A) :
  (i < List.length l)%nat -> (j < List.length l)%nat ->
  nth i (INTP_SWAP d i j l) d = nth j l d.
Proof.
  intros Hi Hj. unfold INTP_SWAP.
  destruct (Nat.eq_dec i j) as [->|Hij].
  - rewrite nth_update_eq; [reflexivity | now rewrite length_update].
  - rewrite nth_update_neq by congruence. now apply nth_update_eq.
Qed.

Lemma nth_INTP_SWAP_r (i j : nat) (l : list A) :
  (i < List.length l)%nat -> (j < List.length l)%nat ->
  nth j (INTP_SWAP d i j l) d = nth i l d.
Proof.
  intros Hi Hj. unfold INTP_SWAP.
  rewrite nth_update_eq; [reflexivity | now rewrite length_update].
Qed.

Lemma nth_INTP_SWAP_other (i j k : nat) (l : list A) :
  k <> i -> k <> j -> nth k (INTP_SWAP d i j l) d = nth k l d.
Proof.
  intros Hi Hj. unfold INTP_SWAP. now rewrite !nth_update_neq.
Qed.

End UpdateFacts.

Lemma less_irrefl (x : float) : less x x = false.
Proof.
  destruct x; simpl; try reflexivity.
  apply negb_false_iff. apply Qcleb_refl.
Qed.

Lemma less_asym (x y : float) : less x y = true -> less y x = false.
Proof.
  destruct x, y; simpl; try discriminate; try reflexivity.
  intros H. apply negb_true_iff in H. apply negb_false_iff.
  now apply Qcleb_total.
Qed.

Lemma not_less_trans (x y z : float) :
  less y x = false -> less z y = false -> less z x = false.
Proof.
  destruct x, y, z; simpl; try discriminate; try reflexivity.
  rewrite !negb_false_iff. apply Qcleb_trans.
Qed.


Section PartitionFacts.
Context {A : Type}.
Variable key : A -> float.
Variable d : A.

Lemma le_by_refl (a : A) : le_by key a a.
Proof. apply less_irrefl. Qed.

Lemma less_by_le (a b : A) : less_by key a b = true -> le_by key a b.
Proof. apply less_asym. Qed.

Lemma le_by_trans (a b c : A) : le_by key a b -> le_by key b c -> le_by key a c.
Proof. unfold le_by, less_by. apply not_less_trans. Qed.

(** The upward scan stops at the first row that is not less than the pivot,
    at the latest at a row [j] known to be such. *)
Lemma scan_up_spec (fuel : nat) (l : list A) (vp : A) (i j : nat) :
  (i < j)%nat -> (j <= S i + fuel)%nat -> le_by key vp (nth j l d) ->
  let i' := scan_up key d fuel l vp i in
  (i < i' <= j)%nat /\ le_by key vp (nth i' l d) /\
  (forall k, (i < k < i')%nat -> le_by key (nth k l d) vp).
Proof.
  revert i. induction fuel as [|fuel IH]; intros i Hij Hf Hj; simpl.
  - assert (j = S i) by lia. subst j.
    split; [lia|]. split; [exact Hj|]. intros k Hk. lia.
  - destruct (less_by key (nth (S i) l d) vp) eqn:E.
    + assert (S i <> j).
      { intros <-. unfold le_by in Hj. congruence. }
      destruct (IH (S i)) as (H1 & H2 & H3); try lia; auto.
      split; [lia|]. split; [exact H2|].
      intros k Hk. destruct (Nat.eq_dec k (S i)) as [->|Hne].
      * now apply less_by_le.
      * apply H3. lia.
    + split; [lia|]. split; [exact E|]. intros k Hk. lia.
Qed.

(** The downward scan stops at the first row the pivot is not less than, at
    the latest at a row [i] known to be such. *)
Lemma scan_down_spec (fuel : nat) (l : list A) (vp : A) (i j : nat) :
  (i < j)%nat -> (j <= S i + fuel)%nat -> le_by key (nth i l d) vp ->
  let j' := scan_down key d fuel l vp j in
  (i <= j' < j)%nat /\ le_by key (nth j' l d) vp /\
  (forall k, (j' < k < j)%nat -> le_by key vp (nth k l d)).
Proof.
  revert j. induction fuel as [|fuel IH]; intros j Hij Hf Hi; simpl.
  - assert (j = S i) by lia. subst j. simpl.
    split; [lia|]. split; [exact Hi|]. intros k Hk. lia.
  - destruct (less_by key vp (nth (pred j) l d)) eqn:E.
    + assert (pred j <> i).
      { intros <-. unfold le_by in Hi. congruence. }
      destruct (IH (pred j)) as (H1 & H2 & H3); try lia; auto.
      split; [lia|]. split; [exact H2|].
      intros k Hk. destruct (Nat.eq_dec k (pred j)) as [->|Hne].
      * now apply less_by_le.
      * apply H3. lia.
    + split; [lia|]. split; [exact E|]. intros k Hk. lia.
Qed.

(** The loop keeps the rows up to [i] not greater than the pivot and the
    rows from [j] on not less than it, and leaves the parked pivot alone. *)
Lemma partition_loop_spec (fuel : nat) (l : list A) (vp : A) (i j n : nat) :
  List.length l = n -> (i < j)%nat -> (j <= n - 2)%nat -> (2 <= n)%nat ->
  (j - i <= fuel)%nat ->
  (forall k, (k <= i)%nat -> le_by key (nth k l d) vp) ->
  (forall k, (j <= k < n)%nat -> le_by key vp (nth k l d)) ->
  nth (n - 2) l d = vp ->
  let r := partition_loop key d fuel l vp i j in
  Permutation (fst r) l /\
  (i < snd r <= n - 2)%nat /\
  (forall k, (k < snd r)%nat -> le_by key (nth k (fst r) d) vp) /\
  (forall k, (snd r <= k < n)%nat -> le_by key vp (nth k (fst r) d)) /\
  nth (n - 2) (fst r) d = vp.
Proof.
  revert l i j.
  induction fuel as [|fuel IH]; intros l i j Hn Hij Hj Hn2 Hf Hlo Hhi Hp;
    [lia|].
  cbn [partition_loop]. cbv zeta.
  destruct (scan_up_spec (List.length l) l vp i j) as (U1 & U2 & U3);
    try lia.
  { apply Hhi. lia. }
  destruct (scan_down_spec (List.length l) l vp i j) as (D1 & D2 & D3);
    try lia.
  { apply Hlo. lia. }
  set (i' := scan_up key d (List.length l) l vp i) in *.
  set (j' := scan_down key d (List.length l) l vp j) in *.
  destruct (j' <=? i')%nat eqn:E.
  - apply Nat.leb_le in E. cbn [fst snd].
    split; [reflexivity|]. split; [lia|]. split; [|split; [|exact Hp]].
    + intros k Hk. destruct (Nat.le_gt_cases k i); [now apply Hlo|].
      apply U3. lia.
    + intros k Hk. destruct (Nat.eq_dec k i') as [->|Hne]; [exact U2|].
      destruct (Nat.le_gt_cases j k); [apply Hhi; lia|].
      apply D3. lia.
  - apply Nat.leb_gt in E.
    assert (Hi' : (i' < List.length l)%nat) by lia.
    assert (Hj' : (j' < List.length l)%nat) by lia.
    destruct (IH (INTP_SWAP d i' j' l) i' j') as (P1 & P2 & P3 & P4 & P5);
      try lia.
    + now rewrite length_INTP_SWAP.
    + intros k Hk. destruct (Nat.eq_dec k i') as [->|Hne].
      * rewrite nth_INTP_SWAP_l by assumption. exact D2.
      * rewrite nth_INTP_SWAP_other by lia.
        destruct (Nat.le_gt_cases k i); [now apply Hlo|].
        apply U3. lia.
    + intros k Hk. destruct (Nat.eq_dec k j') as [->|Hne].
      * rewrite nth_INTP_SWAP_r by assumption. exact U2.
      * rewrite nth_INTP_SWAP_other by lia.
        destruct (Nat.le_gt_cases j k); [apply Hhi; lia|].
        apply D3. lia.
    + rewrite nth_INTP_SWAP_other by lia. exact Hp.
    + split; [rewrite P1; now apply INTP_SWAP_Permutation|].
      split; [lia|]. split; [exact P3|]. split; [exact P4 | exact P5].
Qed.

(** After the three swaps the first, middle and last row are in order. *)
Lemma median_of_3_spec (l : list A) :
  (3 <= List.length l)%nat ->
  let n := List.length l in
  let m := ((n - 1) / 2)%nat in
  let l3 := median_of_3 key d l in
  Permutation l3 l /\
  le_by key (nth 0 l3 d) (nth m l3 d) /\ le_by key (nth m l3 d) (nth (n - 1) l3 d).
Proof.
  intros Hn n m. 
  assert (Hm : (0 < m < n - 1)%nat).
  { subst m n. split.
    - apply Nat.div_str_pos. lia.
    - apply Nat.Div0.div_lt_upper_bound; lia. }
  unfold median_of_3. fold n. fold m.
  set (l1 := if less_by key (nth m l d) (nth 0 l d) then INTP_SWAP d m 0 l else l).
  assert (H1 : Permutation l1 l /\ le_by key (nth 0 l1 d) (nth m l1 d)).
  { subst l1. destruct (less_by key (nth m l d) (nth 0 l d)) eqn:E.
    - split; [apply INTP_SWAP_Permutation; lia|].
      rewrite nth_INTP_SWAP_l, nth_INTP_SWAP_r by lia. now apply less_by_le.
    - split; [reflexivity | exact E]. }
  destruct H1 as [P1 L1].
  assert (N1 : List.length l1 = n) by (now apply Permutation_length).
  set (l2 := if less_by key (nth (n - 1) l1 d) (nth m l1 d)
             then INTP_SWAP d (n - 1) m l1 else l1).
  assert (H2 : Permutation l2 l1 /\ le_by key (nth m l2 d) (nth (n - 1) l2 d) /\
               (le_by key (nth 0 l2 d) (nth m l2 d) \/ le_by key (nth m l2 d) (nth 0 l2 d)
                /\ le_by key (nth 0 l2 d) (nth (n - 1) l2 d))).
  { subst l2. destruct (less_by key (nth (n - 1) l1 d) (nth m l1 d)) eqn:E.
    - split; [apply INTP_SWAP_Permutation; lia|].
      rewrite nth_INTP_SWAP_l, nth_INTP_SWAP_r by lia.
      rewrite nth_INTP_SWAP_other by lia.
      split; [now apply less_by_le|].
      destruct (less_by key (nth (n - 1) l1 d) (nth 0 l1 d)) eqn:E0.
      + right. split; [now apply less_by_le | exact L1].
      + left. exact E0.
    - split; [reflexivity|]. split; [exact E | left; exact L1]. }
  destruct H2 as (P2 & L2 & L2').
  assert (N2 : List.length l2 = n).
  { rewrite <- N1. now apply Permutation_length. }
  destruct (less_by key (nth m l2 d) (nth 0 l2 d)) eqn:E.
  - split; [rewrite INTP_SWAP_Permutation by lia; now rewrite P2|].
    rewrite nth_INTP_SWAP_l, nth_INTP_SWAP_r by lia.
    rewrite nth_INTP_SWAP_other by lia.
    split; [now apply less_by_le|].
    destruct L2' as [L|[_ L]]; [|exact L].
    unfold le_by in L. congruence.
  - split; [now rewrite P2|]. split; [exact E | exact L2].
Qed.

(** A partition rearranges the run around the pivot: no row before it is
    greater, no row behind it is less, and both sides are non-empty. *)
Lemma quicksort_partition_spec (l : list A) :
  (3 <= List.length l)%nat ->
  let n := List.length l in
  let r := quicksort_partition key d l in
  Permutation (fst r) l /\
  (0 < snd r < n - 1)%nat /\
  (forall k, (k < snd r)%nat -> le_by key (nth k (fst r) d) (nth (snd r) (fst r) d)) /\
  (forall k, (snd r < k < n)%nat -> le_by key (nth (snd r) (fst r) d) (nth k (fst r) d)).
Proof.
  intros Hn n.
  destruct (median_of_3_spec l Hn) as (P3 & L0 & L1). fold n in L0, L1.
  unfold quicksort_partition. fold n.
  set (m := ((n - 1) / 2)%nat) in *.
  assert (Hm : (0 < m < n - 1)%nat).
  { subst m n. split.
    - apply Nat.div_str_pos. lia.
    - apply Nat.Div0.div_lt_upper_bound; lia. }
  set (l3 := median_of_3 key d l) in *.
  assert (N3 : List.length l3 = n) by (now apply Permutation_length).
  set (vp := nth m l3 d) in *.
  set (l4 := INTP_SWAP d m (n - 2) l3).
  assert (N4 : List.length l4 = n) by (subst l4; now rewrite length_INTP_SWAP).
  assert (P4 : Permutation l4 l3) by (apply INTP_SWAP_Permutation; lia).
  destruct (partition_loop_spec n l4 vp 0 (n - 2) n) as (Q1 & Q2 & Q3 & Q4 & Q5);
    try lia; auto.
  - intros k Hk. assert (k = 0)%nat by lia. subst k l4.
    rewrite nth_INTP_SWAP_other by lia. exact L0.
  - intros k Hk. subst l4.
    destruct (Nat.eq_dec k (n - 2)) as [->|Hne].
    + rewrite nth_INTP_SWAP_r by lia. apply le_by_refl.
    + assert (k = n - 1)%nat by lia. subst k.
      rewrite nth_INTP_SWAP_other by lia. exact L1.
  - subst l4. now rewrite nth_INTP_SWAP_r by lia.
  - destruct (partition_loop key d n l4 vp 0 (n - 2)) as [l5 i] eqn:E.
    cbn [fst snd] in *.
    assert (N5 : List.length l5 = n).
    { rewrite <- N4. now apply Permutation_length. }
    split; [|split; [|split]].
    + rewrite INTP_SWAP_Permutation by lia. now rewrite Q1, P4.
    + lia.
    + intros k Hk. rewrite nth_INTP_SWAP_l by lia.
      rewrite nth_INTP_SWAP_other by lia. rewrite Q5. now apply Q3.
    + intros k Hk. rewrite nth_INTP_SWAP_l by lia. rewrite Q5.
      destruct (Nat.eq_dec k (n - 2)) as [->|Hne].
      * rewrite nth_INTP_SWAP_r by lia. apply Q4. lia.
      * rewrite nth_INTP_SWAP_other by lia. apply Q4. lia.
Qed.

End PartitionFacts.


Section HeapFacts.
Context {A : Type}.
Variable key : A -> float.
Variable d : A.


Lemma get1_set1_eq (k : nat) (x : A) (a : list A) :
  (1 <= k <= List.length a)%nat -> get1 d (set1 k x a) k = x.
Proof. intros H. unfold get1, set1. apply nth_update_eq. lia. Qed.

Lemma get1_set1_neq (i k : nat) (x : A) (a : list A) :
  (1 <= i)%nat -> (1 <= k)%nat -> k <> i -> get1 d (set1 i x a) k = get1 d a k.
Proof. intros Hi Hk H. unfold get1, set1. apply nth_update_neq. lia. Qed.

Lemma length_set1 (k : nat) (x : A) (a : list A) :
  List.length (set1 k x a) = List.length a.
Proof. apply length_update. Qed.

(** Moving cell [j] into the hole [i] and [t] into [j] is writing [t] at [i],
    up to the order of the two cells. *)
Lemma update_shift_Permutation (i j : nat) (t : A) (a : list A) :
  (i < List.length a)%nat -> (j < List.length a)%nat -> i <> j ->
  Permutation (update j t (update i (nth j a d) a)) (update i t a).
Proof.
  intros Hi Hj Hij.
  apply (Permutation_cons_inv (a := nth j a d)).
  apply (Permutation_cons_inv (a := nth i a d)).
  assert (H1 := update_Permutation d j t (update i (nth j a d) a)).
  rewrite length_update, nth_update_neq in H1 by congruence.
  assert (H2 := update_Permutation d i (nth j a d) a Hi).
  assert (H3 := update_Permutation d i t a Hi).
  rewrite <- (H1 Hj).
  rewrite (perm_swap t (nth i a d)), <- H2.
  rewrite (perm_swap (nth j a d) (nth i a d)), <- H3.
  apply perm_swap.
Qed.

(** Sifting [tmp] down from the hole at [i] restores the heap from node [lo]
    on, given the heap condition everywhere but at the hole; it writes
    within [i..n] only, and what it writes there is [tmp] or was there. *)
Lemma sift_spec (fuel : nat) (a : list A) (tmp : A) (i n lo : nat)
      (P : A -> Prop) :
  (1 <= lo <= i)%nat -> (i <= n)%nat -> (n <= List.length a)%nat ->
  (n + 1 <= fuel + i)%nat ->
  (forall k, (lo <= k)%nat -> k <> i -> heap_at key d a n k) ->
  ((lo <= i / 2)%nat -> le_by key tmp (get1 d a (i / 2))) ->
  ((lo <= i / 2)%nat -> heap_at key d a n i) ->
  P tmp -> (forall k, (i <= k <= n)%nat -> P (get1 d a k)) ->
  let r := sift key d fuel a tmp i n in
  (forall k, (lo <= k)%nat -> heap_at key d r n k) /\
  List.length r = List.length a /\
  Permutation r (set1 i tmp a) /\
  (forall k, (1 <= k)%nat -> (k < i \/ n < k)%nat -> get1 d r k = get1 d a k) /\
  (forall k, (i <= k <= n)%nat -> P (get1 d r k)).
Proof.
  revert a i.
  induction fuel as [|fuel IH]; intros a i Hlo Hin Hn Hfuel I1 I2 I3 Pt Pa;
    [lia|].
  assert (Stop :
    (forall c, (c = 2 * i \/ c = 2 * i + 1)%nat -> (c <= n)%nat ->
               le_by key (get1 d a c) tmp) ->
    let r := set1 i tmp a in
    (forall k, (lo <= k)%nat -> heap_at key d r n k) /\
    List.length r = List.length a /\
    Permutation r (set1 i tmp a) /\
    (forall k, (1 <= k)%nat -> (k < i \/ n < k)%nat -> get1 d r k = get1 d a k) /\
    (forall k, (i <= k <= n)%nat -> P (get1 d r k))).
  { intros Hc r. subst r.
    split; [|split; [apply length_set1|split; [reflexivity|split]]].
    - intros k Hk. destruct (Nat.eq_dec k i) as [->|Hne].
      + split; intros Hle.
        * rewrite get1_set1_eq by lia. rewrite get1_set1_neq by lia.
          apply Hc; [now left | exact Hle].
        * rewrite get1_set1_eq by lia. rewrite get1_set1_neq by lia.
          apply Hc; [now right | exact Hle].
      + destruct (I1 k Hk Hne) as [Ha Hb].
        assert (Hdiv : (2 * k = i \/ 2 * k + 1 = i -> i / 2 = k)%nat).
        { intros [<-|<-].
          - rewrite Nat.mul_comm. apply Nat.div_mul. lia.
          - rewrite Nat.mul_comm, Nat.add_comm.
            rewrite Nat.div_add by lia. reflexivity. }
        split; intros Hle.
        * rewrite (get1_set1_neq i k) by lia.
          destruct (Nat.eq_dec (2 * k) i) as [E|E].
          -- rewrite E. rewrite get1_set1_eq by lia.
             rewrite <- (Hdiv (or_introl E)). apply I2.
             rewrite (Hdiv (or_introl E)). exact Hk.
          -- rewrite get1_set1_neq by lia. now apply Ha.
        * rewrite (get1_set1_neq i k) by lia.
          destruct (Nat.eq_dec (2 * k + 1) i) as [E|E].
          -- rewrite E. rewrite get1_set1_eq by lia.
             rewrite <- (Hdiv (or_intror E)). apply I2.
             rewrite (Hdiv (or_intror E)). exact Hk.
          -- rewrite get1_set1_neq by lia. now apply Hb.
    - intros k Hk1 Hk. apply get1_set1_neq; lia.
    - intros k Hk. destruct (Nat.eq_dec k i) as [->|Hne].
      + now rewrite get1_set1_eq by lia.
      + rewrite get1_set1_neq by lia. apply Pa. lia. }
  cbn [sift]. cbv zeta.
  destruct (2 * i <=? n)%nat eqn:E2.
  2:{ apply Nat.leb_gt in E2. apply Stop. intros c Hc Hle. lia. }
  apply Nat.leb_le in E2.
  set (j := if ((2 * i <? n)%nat && less_by key (get1 d a (2 * i)) (get1 d a (2 * i + 1)))%bool
            then (2 * i + 1)%nat else (2 * i)%nat).
  assert (Hj : (j = 2 * i \/ j = 2 * i + 1)%nat /\ (j <= n)%nat /\
               (forall c, (c = 2 * i \/ c = 2 * i + 1)%nat -> (c <= n)%nat ->
                          le_by key (get1 d a c) (get1 d a j))).
  { subst j. destruct (2 * i <? n)%nat eqn:E3; cbn [andb].
    - apply Nat.ltb_lt in E3.
      destruct (less_by key (get1 d a (2 * i)) (get1 d a (2 * i + 1))) eqn:E4.
      + split; [now right|]. split; [lia|].
        intros c [->| ->] Hle; [now apply less_by_le | apply le_by_refl].
      + split; [now left|]. split; [lia|].
        intros c [->| ->] Hle; [apply le_by_refl | exact E4].
    - apply Nat.ltb_ge in E3. split; [now left|]. split; [lia|].
      intros c [->| ->] Hle; [apply le_by_refl | lia]. }
  destruct Hj as (Hj & Hjn & Hmax).
  assert (Hji : (j / 2 = i)%nat).
  { destruct Hj as [->| ->].
    - rewrite Nat.mul_comm. apply Nat.div_mul. lia.
    - rewrite Nat.mul_comm, Nat.add_comm.
      rewrite Nat.div_add by lia. reflexivity. }
  destruct (less_by key tmp (get1 d a j)) eqn:E5.
  2:{ apply Stop. intros c Hc Hle.
      apply (le_by_trans key _ (get1 d a j)); [now apply Hmax | exact E5]. }
  set (a2 := set1 i (get1 d a j) a).
  destruct (IH a2 j) as (R1 & R2 & R3 & R4 & R5); try lia.
  - subst a2. rewrite length_set1. lia.
  - (* I1 *)
    intros k Hk Hne. subst a2.
    destruct (Nat.eq_dec k i) as [->|Hki].
    + split; intros Hle; rewrite get1_set1_eq by lia;
        rewrite get1_set1_neq by lia; apply Hmax; auto.
    + destruct (I1 k Hk Hki) as [Ha Hb].
      assert (Hdiv : (2 * k = i \/ 2 * k + 1 = i -> i / 2 = k)%nat).
      { intros [<-|<-].
        - rewrite Nat.mul_comm. apply Nat.div_mul. lia.
        - rewrite Nat.mul_comm, Nat.add_comm.
          rewrite Nat.div_add by lia. reflexivity. }
      assert (Hup : (2 * k = i \/ 2 * k + 1 = i)%nat ->
                    le_by key (get1 d a j) (get1 d a k)).
      { intros Hc. assert (Hp := Hdiv Hc).
        assert (Hlo' : (lo <= i / 2)%nat) by (rewrite Hp; exact Hk).
        destruct (I3 Hlo') as [Hc1 Hc2].
        apply (le_by_trans key _ (get1 d a i)).
        - destruct Hj as [->| ->]; [apply Hc1 | apply Hc2]; lia.
        - destruct Hc as [<-|<-]; [apply Ha | apply Hb]; lia. }
      split; intros Hle.
      * rewrite (get1_set1_neq i k) by lia.
        destruct (Nat.eq_dec (2 * k) i) as [E|E].
        -- rewrite E. rewrite get1_set1_eq by lia. apply Hup. now left.
        -- rewrite get1_set1_neq by lia. now apply Ha.
      * rewrite (get1_set1_neq i k) by lia.
        destruct (Nat.eq_dec (2 * k + 1) i) as [E|E].
        -- rewrite E. rewrite get1_set1_eq by lia. apply Hup. now right.
        -- rewrite get1_set1_neq by lia. now apply Hb.
  - (* I2 *)
    intros _. rewrite Hji. subst a2. rewrite get1_set1_eq by lia.
    now apply less_by_le.
  - (* I3 *)
    intros _. subst a2.
    assert (Hne : j <> i) by lia.
    destruct (I1 j ltac:(lia) Hne) as [Ha Hb].
    split; intros Hle; rewrite !get1_set1_neq by lia; auto.
  - exact Pt.
  - intros k Hk. subst a2. rewrite get1_set1_neq by lia. apply Pa. lia.
  - split; [exact R1|]. split; [|split; [|split]].
    + rewrite R2. apply length_set1.
    + rewrite R3. subst a2. unfold set1, get1.
      apply update_shift_Permutation; lia.
    + intros k Hk1 Hk. rewrite R4 by lia. subst a2.
      apply get1_set1_neq; lia.
    + intros k Hk. destruct (Nat.eq_dec k i) as [->|Hne].
      * rewrite R4 by lia. subst a2. rewrite get1_set1_eq by lia.
        apply Pa. lia.
      * destruct (Nat.le_gt_cases j k).
        -- apply R5. lia.
        -- rewrite R4 by lia. subst a2. rewrite get1_set1_neq by lia.
           apply Pa. lia.
Qed.


(** The first loop builds a heap of the rows it was given. *)
Lemma heapify_spec (l : nat) (a : list A) (n : nat) :
  (l <= n)%nat -> (n <= List.length a)%nat ->
  (forall k, (l < k)%nat -> heap_at key d a n k) ->
  let r := heapify key d l a n in
  (forall k, (1 <= k)%nat -> heap_at key d r n k) /\
  List.length r = List.length a /\ Permutation r a.
Proof.
  revert a. induction l as [|l IH]; intros a Hl Hn Hheap.
  - cbn [heapify]. split; [|split; reflexivity].
    intros k Hk. apply Hheap. lia.
  - cbn [heapify].
    assert (Hdiv : (S l / 2 < S l)%nat) by (apply Nat.div_lt; lia).
    destruct (sift_spec n a (get1 d a (S l)) (S l) n (S l) (fun _ => True))
      as (R1 & R2 & R3 & _); try lia; auto.
    + intros k Hk Hne. apply Hheap. lia.
    + destruct (IH (sift key d n a (get1 d a (S l)) (S l) n))
        as (Q1 & Q2 & Q3); try lia.
      * intros k Hk. apply R1. lia.
      * split; [exact Q1|]. split; [congruence|].
        rewrite Q3, R3. unfold set1, get1. now rewrite update_same.
Qed.

(** No row of a heap is greater than its root. *)
Lemma root_max (a : list A) (n : nat) :
  (forall k, (1 <= k)%nat -> heap_at key d a n k) ->
  forall k, (1 <= k <= n)%nat -> le_by key (get1 d a k) (get1 d a 1).
Proof.
  intros Hheap k. induction k as [k IH] using lt_wf_ind. intros Hk.
  destruct (Nat.eq_dec k 1) as [->|Hne]; [apply le_by_refl|].
  assert (Hp : (1 <= k / 2)%nat).
  { apply Nat.div_le_lower_bound; lia. }
  assert (Hlt : (k / 2 < k)%nat) by (apply Nat.div_lt; lia).
  apply (le_by_trans key _ (get1 d a (k / 2))); [|apply IH; lia].
  destruct (Hheap (k / 2)%nat Hp) as [Ha Hb].
  assert (Hk2 := Nat.div_mod_eq k 2).
  assert (Hm : (k mod 2 < 2)%nat) by (apply Nat.mod_upper_bound; lia).
  destruct (Nat.eq_dec (k mod 2) 0) as [E|E].
  - replace k with (2 * (k / 2))%nat at 1 by lia. apply Ha. lia.
  - replace k with (2 * (k / 2) + 1)%nat at 1 by lia. apply Hb. lia.
Qed.

(** The second loop: the cells behind the heap are sorted and not less than
    any row of the heap, until the heap is used up. *)
Lemma sort_heap_spec (n : nat) (a : list A) :
  (n <= List.length a)%nat ->
  (forall k, (1 <= k)%nat -> heap_at key d a n k) ->
  (forall k1 k2, (n < k1 <= k2)%nat -> (k2 <= List.length a)%nat ->
                 le_by key (get1 d a k1) (get1 d a k2)) ->
  (forall k k', (1 <= k <= n)%nat -> (n < k' <= List.length a)%nat ->
                le_by key (get1 d a k) (get1 d a k')) ->
  let r := sort_heap key d n a in
  (forall k1 k2, (1 <= k1 <= k2)%nat -> (k2 <= List.length a)%nat ->
                 le_by key (get1 d r k1) (get1 d r k2)) /\
  Permutation r a.
Proof.
  revert a. induction n as [|n IH]; intros a Hn Hheap Hsuf Hpre.
  - cbn [sort_heap]. split; [|reflexivity].
    intros k1 k2 Hk Hk2. apply Hsuf; lia.
  - cbn [sort_heap]. destruct (1 <? S n)%nat eqn:E.
    + apply Nat.ltb_lt in E. cbv zeta.
      set (tmp := get1 d a (S n)).
      set (a1 := set1 (S n) (get1 d a 1) a).
      assert (N1 : List.length a1 = List.length a) by apply length_set1.
      assert (Hmax := root_max a (S n) Hheap).
      destruct (sift_spec n a1 tmp 1 n 1
                  (fun x => le_by key x (get1 d a 1) /\
                            forall k', (S n < k' <= List.length a)%nat ->
                                       le_by key x (get1 d a k')))
        as (R1 & R2 & R3 & R4 & R5); try lia.
      * intros k Hk Hne. subst a1.
        destruct (Hheap k Hk) as [Ha Hb].
        split; intros Hle; rewrite !get1_set1_neq by lia; [apply Ha|apply Hb];
          lia.
      * intros H. simpl in H. lia.
      * intros H. simpl in H. lia.
      * split; [apply Hmax; lia|]. intros k' Hk'. apply Hpre; lia.
      * intros k Hk. subst a1. rewrite get1_set1_neq by lia.
        split; [apply Hmax; lia|]. intros k' Hk'. apply Hpre; lia.
      * assert (Hn1 : get1 d (sift key d n a1 tmp 1 n) (S n) = get1 d a 1).
        { rewrite R4 by lia. subst a1. apply get1_set1_eq. lia. }
        assert (Hrest : forall k, (S n < k)%nat ->
                  get1 d (sift key d n a1 tmp 1 n) k = get1 d a k).
        { intros k Hk. rewrite R4 by lia. subst a1.
          apply get1_set1_neq; lia. }
        destruct (IH (sift key d n a1 tmp 1 n)) as [Q1 Q2]; try lia.
        -- exact R1.
        -- intros k1 k2 Hk Hk2. rewrite R2, N1 in Hk2.
           destruct (Nat.eq_dec k1 (S n)) as [->|Hne1].
           ++ rewrite Hn1.
              destruct (Nat.eq_dec k2 (S n)) as [->|Hne2].
              ** rewrite Hn1. apply le_by_refl.
              ** rewrite (Hrest k2) by lia. apply Hpre; lia.
           ++ rewrite !Hrest by lia. apply Hsuf; lia.
        -- intros k k' Hk Hk'. rewrite R2, N1 in Hk'.
           destruct (R5 k ltac:(lia)) as [P1 P2].
           destruct (Nat.eq_dec k' (S n)) as [->|Hne].
           ++ rewrite Hn1. exact P1.
           ++ rewrite (Hrest k') by lia. apply P2. lia.
        -- split.
           ++ intros k1 k2 Hk Hk2. apply Q1; [exact Hk|].
              rewrite R2, N1. exact Hk2.
           ++ rewrite Q2, R3. subst a1 tmp. unfold set1, get1.
              replace (1 - 1)%nat with 0%nat by lia.
              apply (INTP_SWAP_Permutation d (S n - 1) 0 a); lia.
    + apply Nat.ltb_ge in E. split; [|reflexivity].
      intros k1 k2 Hk Hk2.
      destruct (Nat.eq_dec k1 k2) as [->|Hne]; [apply le_by_refl|].
      destruct (Nat.le_gt_cases k1 (S n)).
      * apply Hpre; lia.
      * apply Hsuf; lia.
Qed.

(** Sortedness read off the indices. *)
Lemma sorted_of_nth (l : list A) :
  (forall i j, (i <= j)%nat -> (j < List.length l)%nat ->
               le_by key (nth i l d) (nth j l d)) ->
  StronglySorted (le_by key) l.
Proof.
  induction l as [|x l IH]; intros H; constructor.
  - apply IH. intros i j Hij Hj. apply (H (S i) (S j)); simpl; lia.
  - apply Forall_forall. intros y Hy.
    destruct (In_nth l y d Hy) as (j & Hj & <-).
    apply (H 0%nat (S j)); simpl; lia.
Qed.

(** Heapsort sorts. *)
Lemma aheapsort_spec (a : list A) :
  StronglySorted (le_by key) (aheapsort key d a) /\
  Permutation (aheapsort key d a) a.
Proof.
  unfold aheapsort. set (n := List.length a).
  destruct (heapify_spec (n / 2) a n) as (H1 & H2 & H3); try lia.
  - apply Nat.Div0.div_le_upper_bound. lia.
  - intros k Hk. 
    assert (n < 2 * k)%nat.
    { assert (Hd := Nat.div_mod_eq n 2).
      assert (Hm : (n mod 2 < 2)%nat) by (apply Nat.mod_upper_bound; lia).
      lia. }
    split; intros Hle; lia.
  - destruct (sort_heap_spec n (heapify key d (n / 2) a n)) as [Q1 Q2].
    + lia.
    + exact H1.
    + intros k1 k2 Hk Hk2. lia.
    + intros k k' Hk Hk'. lia.
    + split; [|now rewrite Q2].
      apply sorted_of_nth. intros i j Hij Hj.
      assert (Hlen : List.length (sort_heap key d n (heapify key d (n / 2) a n))
                     = n).
      { rewrite (Permutation_length Q2). exact H2. }
      specialize (Q1 (S i) (S j)). unfold get1 in Q1.
      replace (S i - 1)%nat with i in Q1 by lia.
      replace (S j - 1)%nat with j in Q1 by lia. rewrite Hlen in Hj.
      apply Q1; [lia | rewrite H2; fold n; lia].
Qed.

End HeapFacts.


Section InsertionFacts.
Context {A : Type}.
Variable key : A -> float.

Lemma insert_Permutation (x : A) (run : list A) :
  Permutation (insert key x run) (x :: run).
Proof.
  induction run as [|y run IH]; simpl; [reflexivity|].
  destruct (less_by key x y); [|reflexivity].
  rewrite IH. apply perm_swap.
Qed.

(** The run is held last element first, so it is sorted downwards. *)
Lemma insert_sorted (x : A) (run : list A) :
  StronglySorted (fun a b => le_by key b a) run ->
  StronglySorted (fun a b => le_by key b a) (insert key x run).
Proof.
  intros Hs. induction Hs as [|y run Hs IH Hy]; simpl.
  - repeat constructor.
  - destruct (less_by key x y) eqn:E.
    + constructor; [exact IH|].
      eapply Permutation_Forall; [symmetry; apply insert_Permutation|].
      constructor; [now apply less_by_le | exact Hy].
    + constructor; [now constructor|].
      constructor; [exact E|].
      eapply Forall_impl; [|exact Hy]. intros z Hz. cbv beta in *.
      now apply (le_by_trans key z y x).
Qed.

Lemma fold_insert_Permutation (l acc : list A) :
  Permutation (fold_left (fun run x => insert key x run) l acc) (l ++ acc).
Proof.
  revert acc. induction l as [|x l IH]; intros acc; simpl; [reflexivity|].
  rewrite IH, insert_Permutation. symmetry. apply Permutation_middle.
Qed.

Lemma fold_insert_sorted (l acc : list A) :
  StronglySorted (fun a b => le_by key b a) acc ->
  StronglySorted (fun a b => le_by key b a)
                 (fold_left (fun run x => insert key x run) l acc).
Proof.
  revert acc. induction l as [|x l IH]; intros acc H; simpl; [exact H|].
  apply IH. now apply insert_sorted.
Qed.

Lemma insertion_sort_Permutation (l : list A) :
  Permutation (insertion_sort key l) l.
Proof.
  unfold insertion_sort. rewrite <- Permutation_rev, fold_insert_Permutation.
  now rewrite app_nil_r.
Qed.

Lemma insertion_sort_sorted (l : list A) :
  StronglySorted (le_by key) (insertion_sort key l).
Proof.
  unfold insertion_sort.
  apply (StronglySorted_rev (fun a b => le_by key b a)).
  apply fold_insert_sorted. constructor.
Qed.





End InsertionFacts.

Section QuicksortFacts.
Context {A : Type}.
Variable key : A -> float.

Lemma key_le_le_by (a b : A) :
  not_nan key a -> not_nan key b -> key_le key a b -> le_by key a b.
Proof.
  unfold not_nan, key_le, le_by, less_by, less.
  destruct (key a), (key b); simpl; try discriminate; try reflexivity;
    intros _ _ H; now rewrite H.
Qed.

Lemma le_by_key_le (a b : A) :
  not_nan key a -> not_nan key b -> le_by key a b -> key_le key a b.
Proof.
  unfold not_nan, key_le, le_by, less_by, less.
  destruct (key a), (key b); simpl; try discriminate; try reflexivity;
    intros _ _ H; now apply negb_false_iff in H.
Qed.

Lemma StronglySorted_impl_In (R R' : A -> A -> Prop) (l : list A) :
  (forall a b, In a l -> In b l -> R a b -> R' a b) ->
  StronglySorted R l -> StronglySorted R' l.
Proof.
  intros H Hs. induction Hs as [|x l Hs IH Hx]; constructor.
  - apply IH. intros a b Ha Hb. apply H; now right.
  - rewrite Forall_forall in *. intros y Hy.
    apply H; [now left | now right | now apply Hx].
Qed.

Lemma In_firstn_nth (d : A) (i : nat) (l : list A) (x : A) :
  In x (firstn i l) -> exists k, (k < i)%nat /\ nth k l d = x.
Proof.
  revert i. induction l as [|y l IH]; intros [|i]; simpl; try tauto.
  intros [->|H].
  - exists 0%nat. split; [lia | reflexivity].
  - destruct (IH i H) as (k & Hk & E). exists (S k). split; [lia | exact E].
Qed.

Lemma In_skipn_nth (d : A) (s : nat) (l : list A) (x : A) :
  In x (skipn s l) ->
  exists k, (s <= k < List.length l)%nat /\ nth k l d = x.
Proof.
  revert s. induction l as [|y l IH]; intros [|s]; simpl; try tauto.
  - intros H. destruct (In_nth (y :: l) x d H) as (k & Hk & E).
    exists k. split; [simpl in Hk; lia | exact E].
  - intros H. destruct (IH s H) as (k & Hk & E).
    exists (S k). split; [lia | exact E].
Qed.

Lemma firstn_nth_skipn (d : A) (i : nat) (l : list A) :
  (i < List.length l)%nat ->
  l = (firstn i l ++ nth i l d :: skipn (S i) l)%list.
Proof.
  revert i. induction l as [|y l IH]; intros [|i]; simpl; intros H; try lia.
  - reflexivity.
  - f_equal. apply IH. lia.
Qed.

(** The quicksort returns the rows it was given. *)
Lemma aquicksort_Permutation (d : A) (fuel : nat) (check : bool) (cdepth : Z)
      (l : list A) :
  Permutation (aquicksort key d fuel check cdepth l) l.
Proof.
  revert check cdepth l.
  induction fuel as [|fuel IH]; intros check cdepth l; cbn [aquicksort].
  - apply insertion_sort_Permutation.
  - destruct (check && (cdepth <? 0)%Z); [apply aheapsort_spec|].
    destruct (SMALL_QUICKSORT <? List.length l - 1)%nat eqn:E;
      [|apply insertion_sort_Permutation].
    apply Nat.ltb_lt in E. unfold SMALL_QUICKSORT in E.
    destruct (quicksort_partition_spec key d l) as (P1 & P2 & _); [lia|].
    destruct (quicksort_partition key d l) as [l' i]. cbn [fst snd] in *.
    assert (Hlen : List.length l' = List.length l)
      by now apply Permutation_length.
    apply Permutation_trans
      with (firstn i l' ++ nth i l' d :: skipn (S i) l')%list;
      [|rewrite <- firstn_nth_skipn by lia; exact P1].
    destruct (List.length (firstn i l') <? List.length (skipn (S i) l'))%nat;
      apply Permutation_app; try apply IH;
      apply perm_skip; apply IH.
Qed.

(** The quicksort returns them in ascending order of [less]. *)
Lemma aquicksort_sorted (d : A) (fuel : nat) (check : bool) (cdepth : Z)
      (l : list A) :
  StronglySorted (le_by key) (aquicksort key d fuel check cdepth l).
Proof.
  revert check cdepth l.
  induction fuel as [|fuel IH]; intros check cdepth l; cbn [aquicksort].
  - apply insertion_sort_sorted.
  - destruct (check && (cdepth <? 0)%Z); [apply aheapsort_spec|].
    destruct (SMALL_QUICKSORT <? List.length l - 1)%nat eqn:E;
      [|apply insertion_sort_sorted].
    apply Nat.ltb_lt in E. unfold SMALL_QUICKSORT in E.
    destruct (quicksort_partition_spec key d l) as (P1 & P2 & P3 & P4); [lia|].
    destruct (quicksort_partition key d l) as [l' i]. cbn [fst snd] in *.
    assert (Hlen : List.length l' = List.length l)
      by now apply Permutation_length.
    assert (Join : forall s1 s2,
              Permutation s1 (firstn i l') ->
              Permutation s2 (skipn (S i) l') ->
              StronglySorted (le_by key) s1 -> StronglySorted (le_by key) s2 ->
              StronglySorted (le_by key) (s1 ++ nth i l' d :: s2)).
    { intros s1 s2 Q1 Q2 S1 S2.
      assert (Hlo : forall x, In x s1 -> le_by key x (nth i l' d)).
      { intros x Hx. apply (Permutation_in _ Q1) in Hx.
        destruct (In_firstn_nth d _ _ _ Hx) as (k & Hk & <-).
        now apply P3. }
      assert (Hhi : forall y, In y s2 -> le_by key (nth i l' d) y).
      { intros y Hy. apply (Permutation_in _ Q2) in Hy.
        destruct (In_skipn_nth d _ _ _ Hy) as (k & Hk & <-).
        apply P4. lia. }
      apply StronglySorted_app.
      - exact S1.
      - constructor; [exact S2|]. apply Forall_forall. exact Hhi.
      - intros x y Hx [<-|Hy]; [now apply Hlo|].
        apply (le_by_trans key _ (nth i l' d));
          [now apply Hlo | now apply Hhi]. }
    destruct (List.length (firstn i l') <? List.length (skipn (S i) l'))%nat;
      apply Join; try apply aquicksort_Permutation; apply IH.
Qed.

(** The length of the run is fuel enough: more of it changes nothing. *)
Lemma aquicksort_fuel (d : A) (f1 f2 : nat) (check : bool) (cdepth : Z)
      (l : list A) :
  (List.length l <= f1)%nat -> (List.length l <= f2)%nat ->
  aquicksort key d f1 check cdepth l = aquicksort key d f2 check cdepth l.
Proof.
  revert f2 check cdepth l.
  induction f1 as [|f1 IH]; intros f2 check cdepth l H1 H2.
  - destruct l; [|simpl in H1; lia]. destruct f2; [reflexivity|].
    cbn [aquicksort]. destruct (check && (cdepth <? 0)%Z); reflexivity.
  - destruct f2.
    + destruct l; [|simpl in H2; lia].
      cbn [aquicksort]. destruct (check && (cdepth <? 0)%Z); reflexivity.
    + cbn [aquicksort].
      destruct (check && (cdepth <? 0)%Z); [reflexivity|].
      destruct (SMALL_QUICKSORT <? List.length l - 1)%nat eqn:E;
        [|reflexivity].
      apply Nat.ltb_lt in E. unfold SMALL_QUICKSORT in E.
      destruct (quicksort_partition_spec key d l) as (P1 & P2 & _); [lia|].
      destruct (quicksort_partition key d l) as [l' i]. cbn [fst snd] in *.
      assert (Hlen : List.length l' = List.length l)
        by now apply Permutation_length.
      assert (HL : (List.length (firstn i l') <= f1 /\
                    List.length (firstn i l') <= f2)%nat).
      { rewrite length_firstn. lia. }
      assert (HR : (List.length (skipn (S i) l') <= f1 /\
                    List.length (skipn (S i) l') <= f2)%nat).
      { rewrite length_skipn. lia. }
      destruct (List.length (firstn i l') <? List.length (skipn (S i) l'))%nat;
        f_equal; try (apply IH; tauto); f_equal; apply IH; tauto.
Qed.



Lemma argsort_Permutation (l : list A) : Permutation (argsort key l) l.
Proof.
  destruct l as [|d l]; [reflexivity|]. apply aquicksort_Permutation.
Qed.

Lemma argsort_sorted (l : list A) :
  Forall (not_nan key) l -> StronglySorted (key_le key) (argsort key l).
Proof.
  intros H.
  apply (StronglySorted_impl_In (le_by key)).
  - assert (H1 : Forall (not_nan key) (argsort key l)).
    { eapply Permutation_Forall; [symmetry; apply argsort_Permutation|].
      exact H. }
    rewrite Forall_forall in H1. intros a b Ha Hb. apply le_by_key_le; auto.
  - destruct l as [|d l]; [constructor|]. apply aquicksort_sorted.
Qed.

End QuicksortFacts.

(** ** Facts about [sort_values] *)

Section SortingFacts.
Context {A : Type}.
Variable key : A -> float.




Lemma sorted_part_Permutation (ascending : bool) (l : list A) :
  Permutation (if ascending then argsort key l else rev (argsort key (rev l))) l.
Proof.
  destruct ascending.
  - apply argsort_Permutation.
  - rewrite <- Permutation_rev, argsort_Permutation. symmetry.
    apply Permutation_rev.
Qed.

Theorem sort_values_Permutation (ascending : bool) (l : list A) :
  Permutation (sort_values key ascending l) l.
Proof.
  unfold sort_values. rewrite sorted_part_Permutation.
  apply (filter_split_Permutation (fun r => isnan (key r))).
Qed.



(** Without NaN keys the result is sorted in the direction asked for. *)
Lemma sort_values_no_nan (ascending : bool) (l : list A) :
  Forall (not_nan key) l ->
  sort_values key ascending l =
  if ascending then argsort key l else rev (argsort key (rev l)).
Proof.
  intros H. unfold sort_values.
  rewrite (filter_none (fun r => isnan (key r))) by exact H.
  rewrite filter_all, app_nil_r; [reflexivity|].
  eapply Forall_impl; [|exact H]. unfold not_nan. now intros r ->.
Qed.

Theorem sort_values_descending (l : list A) :
  Forall (not_nan key) l -> StronglySorted (key_ge key) (sort_values key false l).
Proof.
  intros H. rewrite sort_values_no_nan by exact H.
  apply (StronglySorted_rev (key_le key)), argsort_sorted.
  eapply Permutation_Forall; [apply Permutation_rev | exact H].
Qed.

Theorem sort_values_ascending (l : list A) :
  Forall (not_nan key) l -> StronglySorted (key_le key) (sort_values key true l).
Proof.
  intros H. rewrite sort_values_no_nan by exact H.
  now apply argsort_sorted.
Qed.

End SortingFacts.

(** ** Join and normalize *)

Lemma fillna_not_None {A : Type} (v : A) (c : option A) : fillna v c <> None.
Proof. destruct c; discriminate. Qed.

Lemma fill_row_complete (r : Row) : complete (fill_row r).
Proof. repeat split; simpl; apply fillna_not_None. Qed.

Lemma join_and_fill_complete tracking roster payouts :
  Forall complete (join_and_fill tracking roster payouts).
Proof.
  unfold join_and_fill. apply Forall_forall. intros r Hr.
  apply in_map_iff in Hr. destruct Hr as [r0 [<- _]].
  apply fill_row_complete.
Qed.

Lemma merge_left_app {L R O : Type} (matches : L -> R -> bool)
    (join : L -> option R -> O) (l1 l2 : list L) (right : list R) :
  merge_left matches join (l1 ++ l2) right =
  (merge_left matches join l1 right ++ merge_left matches join l2 right)%list.
Proof. unfold merge_left. apply flat_map_app. Qed.

Lemma merge_left_unmatched {L R O : Type} (matches : L -> R -> bool)
    (join : L -> option R -> O) (l : L) (right : list R) :
  Forall (fun r => matches l r = false) right ->
  merge_left matches join [l] right = [join l None].
Proof.
  intros H. unfold merge_left. simpl.
  now rewrite (filter_none (matches l)) by exact H.
Qed.

Lemma merge_left_not_nil {L R O : Type} (matches : L -> R -> bool)
    (join : L -> option R -> O) (l : L) (right : list R) :
  merge_left matches join [l] right <> [].
Proof.
  unfold merge_left. simpl. rewrite app_nil_r.
  destruct (filter (matches l) right); discriminate.
Qed.

Lemma merge_left_In {L R O : Type} (matches : L -> R -> bool)
    (join : L -> option R -> O) (left : list L) (right : list R) (o : O) :
  In o (merge_left matches join left right) ->
  exists l, In l left /\
    ((o = join l None /\ Forall (fun r => matches l r = false) right) \/
     (exists r, In r right /\ matches l r = true /\ o = join l (Some r))).
Proof.
  unfold merge_left. intros H. apply in_flat_map in H.
  destruct H as [l [Hl Ho]]. exists l. split; [exact Hl|].
  destruct (filter (matches l) right) as [|m ms] eqn:E.
  - left. destruct Ho as [<-|[]]. split; [reflexivity|].
    apply Forall_forall. intros r Hr.
    destruct (matches l r) eqn:Em; [|reflexivity].
    assert (Hin : In r (filter (matches l) right))
      by (apply filter_In; now split).
    rewrite E in Hin. destruct Hin.
  - right. apply in_map_iff in Ho. destruct Ho as [r [<- Hr]].
    rewrite <- E in Hr. apply filter_In in Hr. destruct Hr as [Hr Hm].
    exists r. now repeat split.
Qed.

Lemma join_and_fill_app (t1 t2 : list TrackingRecord) roster payouts :
  join_and_fill (t1 ++ t2) roster payouts =
  (join_and_fill t1 roster payouts ++ join_and_fill t2 roster payouts)%list.
Proof.
  unfold join_and_fill, merge_payouts, merge_influencers.
  now rewrite !merge_left_app, map_app.
Qed.

(** The rows a tracking record gives rise to are rows of the whole table. *)
Lemma join_and_fill_incl (t : TrackingRecord) tracking roster payouts :
  In t tracking ->
  incl (join_and_fill [t] roster payouts)
       (join_and_fill tracking roster payouts).
Proof.
  intros Hin. apply in_split in Hin. destruct Hin as [l1 [l2 ->]].
  change (t :: l2) with ([t] ++ l2)%list.
  rewrite !join_and_fill_app. intros r Hr.
  apply in_or_app. right. apply in_or_app. now left.
Qed.

Lemma join_and_fill_not_nil (t : TrackingRecord) roster payouts :
  join_and_fill [t] roster payouts <> [].
Proof.
  unfold join_and_fill, merge_payouts, merge_influencers.
  pose proof (merge_left_not_nil
    (fun t i => key_eqb (t_influencer_id t) (i_ID i)) join_influencer
    t roster) as H1.
  destruct (merge_left _ join_influencer [t] roster) as [|r rs]; [congruence|].
  change (r :: rs) with ([r] ++ rs)%list. rewrite merge_left_app, map_app.
  pose proof (merge_left_not_nil
    (fun r p => key_eqb (influencer_id r) (pay_influencer_id p)) join_payout
    r payouts) as H2.
  destruct (merge_left _ join_payout [r] payouts); [congruence|]. discriminate.
Qed.

(** The unified rows of a tracking record that matches nobody in the roster. *)
Lemma join_and_fill_unmatched (t : TrackingRecord) roster payouts (r : Row) :
  no_matching_influencer t roster ->
  In r (join_and_fill [t] roster payouts) ->
  ID r = None /\ name r = None /\
  category r = Some "Organic" /\ platform r = Some "Organic" /\
  (no_matching_payout t payouts -> total_payout r = Some 0%Qc).
Proof.
  intros Hno Hr. unfold join_and_fill, merge_influencers in Hr.
  rewrite merge_left_unmatched in Hr by exact Hno.
  apply in_map_iff in Hr. destruct Hr as [r0 [<- Hr0]].
  apply merge_left_In in Hr0.
  destruct Hr0 as [l [[<-|[]] [[-> _]|[p [Hp [Hm ->]]]]]]; simpl;
    repeat split; try reflexivity.
  intros Hpay. unfold no_matching_payout in Hpay.
  rewrite Forall_forall in Hpay. apply Hpay in Hp.
  simpl in Hm. congruence.
Qed.

(** C6 (as amended). After the two merges and the four fills every row of
    the unified table has a category, a platform, a total payout and a
    revenue. A tracking record with no matching influencer gives at least one
    unified row, each with category "Organic" and platform "Organic"; its
    total payout is 0 when, in addition, no payout record matches its
    influencer id. *)
Theorem C6_join_normalize_complete :
  forall tracking roster payouts,
    Forall complete (join_and_fill tracking roster payouts) /\
    forall t, In t tracking -> no_matching_influencer t roster ->
      join_and_fill [t] roster payouts <> [] /\
      forall r, In r (join_and_fill [t] roster payouts) ->
        In r (join_and_fill tracking roster payouts) /\
        category r = Some "Organic" /\ platform r = Some "Organic" /\
        (no_matching_payout t payouts -> total_payout r = Some 0%Qc).
Proof.
  intros tracking roster payouts. split.
  - apply join_and_fill_complete.
  - intros t Ht Hno. split; [apply join_and_fill_not_nil|].
    intros r Hr. split.
    + now apply (join_and_fill_incl t tracking).
    + destruct (join_and_fill_unmatched t roster payouts r Hno Hr)
        as [_ [_ H]]. exact H.
Qed.

(** The organic row of the scenario: complete, "Organic" twice, payout 0. *)
Lemma C6_join_normalize_complete_witness :
  Forall complete Scenario.unified /\
  forall r,
    In r (join_and_fill [mkTracking None (Timestamp 0) "organic"
                                    (Some (rupees 50))]
                        Scenario.roster Scenario.payouts) ->
    category r = Some "Organic" /\ platform r = Some "Organic" /\
    total_payout r = Some 0%Qc.
Proof.
  destruct (C6_join_normalize_complete
              Scenario.tracking Scenario.roster Scenario.payouts) as [Hc Hu].
  split; [exact Hc|]. intros r Hr.
  destruct (Hu (mkTracking None (Timestamp 0) "organic" (Some (rupees 50))))
    as [_ H].
  - right. left. reflexivity.
  - repeat constructor.
  - destruct (H r Hr) as [_ [Hcat [Hplat Hpay]]].
    repeat split; [exact Hcat | exact Hplat |].
    apply Hpay. repeat constructor.
Defined.

(** C6 as stated fails: a tracking record for influencer 7, who is not in the
    roster but has a payout record, becomes an "Organic" row with total
    payout 40, not 0. *)
Lemma C6_counterexample :
  no_matching_influencer Orphan.tracking_row Orphan.roster /\
  map (fun r => (category r, platform r, option_map to_Q (total_payout r)))
      (join_and_fill [Orphan.tracking_row] Orphan.roster Orphan.payouts)
  = [(Some "Organic", Some "Organic", Some (40 # 1))] /\
  ~ (forall r,
       In r (join_and_fill [Orphan.tracking_row] Orphan.roster Orphan.payouts)
       -> total_payout r = Some 0%Qc).
Proof.
  split; [repeat constructor|]. split; [vm_compute; reflexivity|].
  intros H.
  assert (Hin : In (fill_row (join_payout
                      (join_influencer Orphan.tracking_row None)
                      (Some (mkPayout (Some 7%Z) (Some (rupees 40))))))
                   (join_and_fill [Orphan.tracking_row] Orphan.roster
                                  Orphan.payouts))
    by (left; reflexivity).
  apply H in Hin. apply (f_equal (option_map to_Q)) in Hin.
  vm_compute in Hin. discriminate.
Qed.

(** ** The filter engine *)

Lemma filter_true {A : Type} (l : list A) : filter (fun _ => true) l = l.
Proof. apply filter_all, Forall_forall. reflexivity. Qed.

Lemma filter_andb {A : Type} (f g : A -> bool) (l : list A) :
  filter g (filter f l) = filter (fun x => f x && g x) l.
Proof.
  induction l as [|x l IH]; simpl; [reflexivity|].
  destruct (f x); simpl; [destruct (g x)|]; now rewrite IH.
Qed.

Lemma filter_unless {A : Type} (all : bool) (p : A -> bool) (l : list A) :
  (if negb all then filter p l else l) = filter (fun x => all || p x) l.
Proof. destruct all; simpl; [symmetry; apply filter_true | reflexivity]. Qed.

Lemma category_platform_filtered_spec (data : list Row) (f : Filters) :
  category_platform_filtered data f =
  filter (fun r =>
            (contains "All" (selected_categories f) || in_categories f r)
            && (contains "All" (selected_platforms f) || in_platforms f r))
         data.
Proof.
  unfold category_platform_filtered. cbv zeta.
  now rewrite !filter_unless, filter_andb.
Qed.

(** When the date tuple unpacks, the filter block is one [filter]. *)
Lemma filtered_df_passes (data : list Row) (f : Filters) :
  (List.length (date_range f) = 0 \/ List.length (date_range f) = 2)%nat ->
  filtered_df data f = Ok (filter (passes f) data).
Proof.
  intros Hlen. unfold filtered_df, passes. cbv zeta.
  rewrite category_platform_filtered_spec.
  destruct (date_range f) as [|s [|e [|x l]]]; simpl in Hlen;
    try (destruct Hlen; discriminate).
  - f_equal. apply filter_ext. intros r. now rewrite andb_true_r.
  - now rewrite filter_andb.
Qed.

Lemma filtered_df_raises (data : list Row) (f : Filters) :
  date_range f <> [] -> List.length (date_range f) <> 2%nat ->
  exists msg, filtered_df data f = Raise (ValueError msg).
Proof.
  intros Hne Hlen. unfold filtered_df. cbv zeta.
  destruct (date_range f) as [|s [|e [|x l]]]; simpl in Hlen;
    try congruence; eexists; reflexivity.
Qed.

(** C7. Filtering is idempotent and leaves its input alone: filtering the
    output of the filter again with the same selection returns that output
    (and a selection the filter rejects is rejected again), and the filter
    block of the script never changes [campaign_data]; it is a function, so
    the same inputs give the same output. *)
Theorem C7_filter_idempotent :
  forall (R : list Row) (f : Filters),
    and_then (filtered_df R f) (fun R' => filtered_df R' f) = filtered_df R f
    /\ (forall s, campaign_data_var (fst (filter_step f s))
                  = campaign_data_var s)
    /\ (forall s, filter_step f (fst (filter_step f s)) = filter_step f s).
Proof.
  intros R f. split; [|split].
  - destruct (Nat.eq_dec (List.length (date_range f)) 0) as [H0|H0];
      [|destruct (Nat.eq_dec (List.length (date_range f)) 2) as [H2|H2]].
    + rewrite filtered_df_passes by (now left). simpl.
      rewrite filtered_df_passes by (now left). now rewrite filter_twice.
    + rewrite filtered_df_passes by (now right). simpl.
      rewrite filtered_df_passes by (now right). now rewrite filter_twice.
    + destruct (filtered_df_raises R f) as [msg ->]; [|exact H2|reflexivity].
      intros E. now rewrite E in H0.
  - intros s. unfold filter_step.
    destruct (filtered_df (campaign_data_var s) f); reflexivity.
  - intros s. unfold filter_step.
    destruct (filtered_df (campaign_data_var s) f) eqn:E; simpl;
      rewrite E; reflexivity.
Qed.

(** C10. The date predicate is applied only when the selected range is not
    empty, and the range is unpacked as a pair: an empty range skips the date
    filter, a pair applies it, and any other non-empty range makes the filter
    step raise ValueError from the tuple assignment. *)
Theorem C10_date_range_unpacking :
  forall (data : list Row) (f : Filters),
    (date_range f = [] ->
     filtered_df data f = Ok (category_platform_filtered data f)) /\
    (forall start_date end_date,
       date_range f = [start_date; end_date] ->
       filtered_df data f =
       Ok (filter (in_dates start_date end_date)
                  (category_platform_filtered data f))) /\
    (date_range f <> [] -> List.length (date_range f) <> 2%nat ->
     exists msg, filtered_df data f = Raise (ValueError msg)).
Proof.
  intros data f. repeat split.
  - intros E. unfold filtered_df. now rewrite E.
  - intros s e E. unfold filtered_df. now rewrite E.
  - apply filtered_df_raises.
Qed.

(** An empty range, a pair and a single selected day on the scenario. *)
Lemma C10_date_range_unpacking_witness :
  filtered_df Scenario.unified (mkFilters [] ["All"] ["All"])
  = Ok (category_platform_filtered Scenario.unified
          (mkFilters [] ["All"] ["All"])) /\
  filtered_df Scenario.unified (mkFilters [0%Z; 1%Z] ["All"] ["All"])
  = Ok (filter (in_dates 0 1)
          (category_platform_filtered Scenario.unified
             (mkFilters [0%Z; 1%Z] ["All"] ["All"]))) /\
  exists msg,
    filtered_df Scenario.unified (mkFilters [0%Z] ["All"] ["All"])
    = Raise (ValueError msg).
Proof.
  split; [|split].
  - apply (C10_date_range_unpacking Scenario.unified
             (mkFilters [] ["All"] ["All"])). reflexivity.
  - apply (C10_date_range_unpacking Scenario.unified
             (mkFilters [0%Z; 1%Z] ["All"] ["All"])). reflexivity.
  - apply (C10_date_range_unpacking Scenario.unified
             (mkFilters [0%Z] ["All"] ["All"])).
    + discriminate.
    + simpl. lia.
Defined.

(** ** The KPI block and the report *)

(** The three metrics the report computes the way the KPI block does. *)
Lemma report_agrees_on_totals (tracking : list TrackingRecord)
    (df : list Row) (roster : list Influencer) :
  total_revenue_val (generate_detailed_report df roster)
  = kpi_total_revenue (kpis tracking df) /\
  total_payout_val (generate_detailed_report df roster)
  = kpi_total_payout (kpis tracking df) /\
  roi_val (generate_detailed_report df roster) = kpi_roi (kpis tracking df).
Proof. repeat split. Qed.

(** The organic term of the KPI block is a function of the tracking table
    alone; the term of the report is a function of the frame it is given. *)
Lemma kpi_incremental_roas_unfold (tracking : list TrackingRecord)
    (df : list Row) :
  kpi_incremental_roas (kpis tracking df) =
  if Qcltb 0%Qc (total_payout_sum df)
  then ((influencer_revenue df - organic_revenue_baseline tracking)
        / total_payout_sum df)%Qc
  else 0%Qc.
Proof. reflexivity. Qed.

Lemma report_incremental_roas_unfold (df : list Row)
    (roster : list Influencer) :
  incremental_roas_val (generate_detailed_report df roster) =
  if Qcltb 0%Qc (total_payout_sum df)
  then ((influencer_revenue df - report_organic_revenue df)
        / total_payout_sum df)%Qc
  else 0%Qc.
Proof. reflexivity. Qed.

(** C1 (the code departs from it). On the scenario, with the category filter
    set to Beauty, the KPI block subtracts the organic revenue of the whole
    tracking table, 50, but the report subtracts the organic revenue of the
    filtered frame, 0: the report's baseline term follows the filter. *)
Theorem C1_report_baseline_follows_filter :
  filtered_df Scenario.unified Scenario.no_filter = Ok Scenario.unified /\
  filtered_df Scenario.unified Scenario.beauty_only = Ok Scenario.beauty_rows /\
  to_Q (organic_revenue_baseline Scenario.tracking) = 50 # 1 /\
  to_Q (report_organic_revenue Scenario.unified) = 50 # 1 /\
  to_Q (report_organic_revenue Scenario.beauty_rows) = 0 # 1 /\
  to_Q (influencer_revenue Scenario.beauty_rows) = 100 # 1.
Proof. repeat split; vm_compute; reflexivity. Qed.

(** C2 (the code departs from it). The report prints the same total revenue,
    total payout and ROI as the KPI block for every frame, but on the
    scenario filtered to Beauty the KPI block shows an incremental ROAS of
    1.25 and the report one of 2.5. *)
Theorem C2_report_incremental_roas_differs :
  to_Q (kpi_total_revenue (kpis Scenario.tracking Scenario.beauty_rows))
  = 100 # 1 /\
  to_Q (total_revenue_val
          (generate_detailed_report Scenario.beauty_rows Scenario.roster))
  = 100 # 1 /\
  to_Q (kpi_total_payout (kpis Scenario.tracking Scenario.beauty_rows))
  = 40 # 1 /\
  to_Q (total_payout_val
          (generate_detailed_report Scenario.beauty_rows Scenario.roster))
  = 40 # 1 /\
  to_Q (kpi_roi (kpis Scenario.tracking Scenario.beauty_rows)) = 3 # 2 /\
  to_Q (roi_val
          (generate_detailed_report Scenario.beauty_rows Scenario.roster))
  = 3 # 2 /\
  to_Q (kpi_incremental_roas (kpis Scenario.tracking Scenario.beauty_rows))
  = 5 # 4 /\
  to_Q (incremental_roas_val
          (generate_detailed_report Scenario.beauty_rows Scenario.roster))
  = 5 # 2.
Proof. repeat split; vm_compute; reflexivity. Qed.

(** ** The ROI column *)

(** The inline guard of the KPI block. *)
Lemma roi_zero_guard (df : list Row) :
  total_payout_sum df = 0%Qc -> roi df = 0%Qc.
Proof. unfold roi. intros ->. now rewrite Qcltb_irrefl. Qed.

(** The replace-and-fill pass of the report's tables and of the per-influencer
    table. *)
Lemma replace_and_fill_finite {K : Type} (g : Group K) :
  is_finite (pf_ROI (replace_and_fill (add_ROI g))) = true /\
  (g_total_payout g = 0%Qc ->
   pf_ROI (replace_and_fill (add_ROI g)) = Fin 0%Qc).
Proof.
  split; simpl.
  - apply fillna0_replace_inf_finite.
  - intros ->. apply fillna0_replace_inf_zero.
Qed.

(** C3 (the code departs from it). The table behind the "ROI by Influencer
    Category" chart divides without any guard: on the unfiltered scenario the
    "Organic" group has total payout 0 and ROI +Infinity, where the report's
    table for the same frame has ROI 0. *)
Theorem C3_category_chart_ROI_infinite :
  map pf_key (category_revenue Scenario.unified) = ["Beauty"; "Organic"] /\
  map (fun p => to_Q (pf_total_payout p)) (category_revenue Scenario.unified)
  = [40 # 1; 0 # 1] /\
  map (fun p => is_finite (pf_ROI p)) (category_revenue Scenario.unified)
  = [true; false] /\
  map (fun p => float_eqb (pf_ROI p) PInf) (category_revenue Scenario.unified)
  = [false; true] /\
  map (fun p => float_eqb (pf_ROI p) (Fin 0%Qc))
      (category_performance Scenario.unified)
  = [false; true].
Proof. repeat split; vm_compute; reflexivity. Qed.

(** ** Data ingestion *)

Lemma read_all_missing (fs : Files) :
  some_file_missing fs -> read_all fs = Raise FileNotFoundError.
Proof.
  unfold some_file_missing, read_all, read_csv.
  destruct (influencers_csv fs), (posts_csv fs), (tracking_data_csv fs),
    (payouts_csv fs); intros [H|[H|[H|H]]]; try discriminate; reflexivity.
Qed.

(** C8. If any of the four CSV files is missing, the run renders the page
    heading and the error message and stops there: nothing is joined,
    filtered or computed, and no widget, metric, chart or table is
    rendered. *)
Theorem C8_missing_source_fails_fast :
  forall (fs : Files) (w : Widgets),
    some_file_missing fs ->
    dashboard fs w = ((banner ++ [missing_files_error])%list, Stopped).
Proof.
  intros fs w H. unfold dashboard, ingest.
  rewrite (read_all_missing fs H). reflexivity.
Qed.

(** The scenario with the payouts file absent. *)
Lemma C8_missing_source_fails_fast_witness :
  dashboard (mkFiles (Some Scenario.roster) (Some []) (Some Scenario.tracking)
                     None)
            (mkWidgets Scenario.no_filter true)
  = ((banner ++ [missing_files_error])%list, Stopped).
Proof.
  apply C8_missing_source_fails_fast.
  right. right. right. reflexivity.
Defined.

(** ** Facts about [groupby] *)

Section GroupByFacts.
Context {K : Type}.
Variable col : Row -> option K.
Variables eqb ltb : K -> K -> bool.
Hypothesis eqb_eq : forall a b, eqb a b = true <-> a = b.




Lemma insert_key_In (k k' : K) (ks : list K) :
  In k' (insert_key eqb ltb k ks) <-> k' = k \/ In k' ks.
Proof.
  induction ks as [|x ks IH]; simpl.
  - intuition.
  - destruct (eqb k x) eqn:E.
    + apply eqb_eq in E. subst x. simpl. intuition.
    + destruct (ltb k x); simpl; [intuition|].
      rewrite IH. intuition.
Qed.

Lemma group_keys_In (k : K) (df : list Row) :
  In k (group_keys col eqb ltb df) <-> exists r, In r df /\ col r = Some k.
Proof.
  induction df as [|r df IH]; simpl.
  - split; [intros [] | intros [r [[] _]]].
  - destruct (col r) as [k0|] eqn:E.
    + rewrite insert_key_In, IH. split.
      * intros [->|[r' [Hr' Hk]]]; [exists r; auto|exists r'; auto].
      * intros [r' [[<-|Hr'] Hk]].
        -- left. congruence.
        -- right. exists r'. auto.
    + rewrite IH. split.
      * intros [r' [Hr' Hk]]. exists r'. auto.
      * intros [r' [[<-|Hr'] Hk]]; [congruence|]. exists r'. auto.
Qed.


End GroupByFacts.




(** Every row of the per-influencer table has a finite ROI. *)
Lemma influencer_performance_merged_finite (df : list Row)
    (roster : list Influencer) :
  Forall (fun p => is_finite (ip_ROI p) = true)
         (influencer_performance_merged df roster).
Proof.
  apply Forall_forall. intros p Hp.
  unfold influencer_performance_merged, merge_inner in Hp.
  apply in_flat_map in Hp. destruct Hp as [q [Hq Hp]].
  apply in_map_iff in Hp. destruct Hp as [i [<- _]].
  apply in_map_iff in Hq. destruct Hq as [g [<- Hg]].
  apply in_map_iff in Hg. destruct Hg as [g0 [<- _]].
  simpl. apply fillna0_replace_inf_finite.
Qed.

Lemma influencer_performance_merged_not_nan (df : list Row)
    (roster : list Influencer) :
  Forall (not_nan ip_ROI) (influencer_performance_merged df roster).
Proof.
  eapply Forall_impl; [|apply influencer_performance_merged_finite].
  intros p. unfold not_nan. now destruct (ip_ROI p).
Qed.

(** ** Rows without an influencer *)



(** ** Ranking *)




(** The same ranking through the whole pipeline, from the three CSV tables. *)
Lemma ranking_example :
  map ip_name (influencer_performance_merged Ranking.unified Ranking.roster)
  = [Some "A"; Some "B"; Some "C"] /\
  map ip_name (influencer_performance Ranking.unified Ranking.roster)
  = [Some "C"; Some "A"; Some "B"].
Proof. split; vm_compute; reflexivity. Qed.

Lemma sort_values_length {A : Type} (key : A -> float) (ascending : bool)
    (l : list A) :
  List.length (sort_values key ascending l) = List.length l.
Proof. apply Permutation_length, sort_values_Permutation. Qed.

Lemma report_top_influencers (df : list Row) (roster : list Influencer) :
  top_influencers (generate_detailed_report df roster)
  = head 3 (sort_values ip_ROI false
              (influencer_performance_merged df roster)).
Proof. reflexivity. Qed.

Lemma report_poor_influencers (df : list Row) (roster : list Influencer) :
  poor_influencers (generate_detailed_report df roster)
  = head 3 (sort_values ip_ROI true
              (influencer_performance_merged df roster)).
Proof. reflexivity. Qed.

(** C5 (as amended). The report takes its bottom three from the head of the
    ascending sort, and the dashboard takes its poor performers from the tail
    of the descending ranking, in that ranking's order. With exactly two
    influencers nothing fails: the dashboard's two tables both show the two
    entries in descending order of ROI, and the report's two lists show the
    same two entries in descending and in ascending order. *)
Theorem C5_bottom_of_the_ranking :
  forall (df : list Row) (roster : list Influencer),
    let merged := influencer_performance_merged df roster in
    let report := generate_detailed_report df roster in
    poor_influencers report = head 3 (sort_values ip_ROI true merged) /\
    top_influencers report = head 3 (sort_values ip_ROI false merged) /\
    top_10 df roster = head 10 (sort_values ip_ROI false merged) /\
    poor_performing df roster = tail 10 (sort_values ip_ROI false merged) /\
    (List.length merged = 2%nat ->
     top_10 df roster = sort_values ip_ROI false merged /\
     poor_performing df roster = sort_values ip_ROI false merged /\
     top_influencers report = sort_values ip_ROI false merged /\
     poor_influencers report = sort_values ip_ROI true merged /\
     Permutation (sort_values ip_ROI false merged) merged /\
     Permutation (sort_values ip_ROI true merged) merged /\
     StronglySorted (key_ge ip_ROI) (sort_values ip_ROI false merged) /\
     StronglySorted (key_le ip_ROI) (sort_values ip_ROI true merged)).
Proof.
  intros df roster merged report. subst merged report.
  repeat split; try reflexivity.
  - unfold top_10, influencer_performance. apply head_all.
    rewrite sort_values_length. lia.
  - unfold poor_performing, influencer_performance. apply tail_all.
    rewrite sort_values_length. lia.
  - rewrite report_top_influencers. apply head_all.
    rewrite sort_values_length. lia.
  - rewrite report_poor_influencers. apply head_all.
    rewrite sort_values_length. lia.
  - apply sort_values_Permutation.
  - apply sort_values_Permutation.
  - apply sort_values_descending, influencer_performance_merged_not_nan.
  - apply sort_values_ascending, influencer_performance_merged_not_nan.
Qed.

(** The two-influencer data: A with ROI 0.5 and C with ROI 0.9. *)
Lemma C5_bottom_of_the_ranking_witness :
  top_10 Ranking.two_unified Ranking.roster
  = sort_values ip_ROI false
      (influencer_performance_merged Ranking.two_unified Ranking.roster) /\
  poor_performing Ranking.two_unified Ranking.roster
  = sort_values ip_ROI false
      (influencer_performance_merged Ranking.two_unified Ranking.roster) /\
  poor_influencers (generate_detailed_report Ranking.two_unified Ranking.roster)
  = sort_values ip_ROI true
      (influencer_performance_merged Ranking.two_unified Ranking.roster).
Proof.
  destruct (C5_bottom_of_the_ranking Ranking.two_unified Ranking.roster)
    as [_ [_ [_ [_ H]]]].
  destruct H as [Htop [Hpoor [_ [Hrep _]]]]; [vm_compute; reflexivity|].
  repeat split; assumption.
Defined.

(** C5 as stated fails on the dashboard: with the two influencers A (ROI 0.5)
    and C (ROI 0.9) the "Poor Performing Influencers" table lists C before A,
    the descending order of the ranking, while the head of the ascending sort
    lists A before C. *)
Lemma C5_counterexample :
  map ip_name
      (influencer_performance_merged Ranking.two_unified Ranking.roster)
  = [Some "A"; Some "C"] /\
  map ip_name (top_10 Ranking.two_unified Ranking.roster)
  = [Some "C"; Some "A"] /\
  map ip_name (poor_performing Ranking.two_unified Ranking.roster)
  = [Some "C"; Some "A"] /\
  map ip_name
      (head 10 (sort_values ip_ROI true
         (influencer_performance_merged Ranking.two_unified Ranking.roster)))
  = [Some "A"; Some "C"] /\
  poor_performing Ranking.two_unified Ranking.roster
  <> head 10 (sort_values ip_ROI true
       (influencer_performance_merged Ranking.two_unified Ranking.roster)).
Proof.
  repeat split; try (vm_compute; reflexivity).
  intros H. apply (f_equal (map ip_name)) in H.
  vm_compute in H. discriminate.
Qed.

(** ** The end-to-end scenario *)

(** Unfiltered: revenue 150, payout 40, ROI 2.75, incremental ROAS 1.25. *)
Lemma end_to_end_scenario :
  filtered_df Scenario.unified Scenario.no_filter = Ok Scenario.unified /\
  to_Q (total_revenue Scenario.unified) = 150 # 1 /\
  to_Q (total_payout_sum Scenario.unified) = 40 # 1 /\
  to_Q (roi Scenario.unified) = 11 # 4 /\
  to_Q (influencer_revenue Scenario.unified) = 100 # 1 /\
  to_Q (organic_revenue_baseline Scenario.tracking) = 50 # 1 /\
  to_Q (incremental_roas Scenario.tracking Scenario.unified) = 5 # 4.
Proof. repeat split; vm_compute; reflexivity. Qed.

(** A single selected day ends the run in the filter block, after the sidebar
    and before any metric. *)
Lemma single_day_ends_the_run :
  dashboard (mkFiles (Some Scenario.roster) (Some []) (Some Scenario.tracking)
                     (Some Scenario.payouts))
            (mkWidgets (mkFilters [0%Z] ["All"] ["All"]) false)
  = ((banner ++
      [ st_sidebar_header "Filter Campaigns";
        st_date_input "Select Date Range:" (Timestamp 0, Timestamp 0);
        st_multiselect "Select Influencer Categories:"
                       [Some "All"; Some "Beauty"];
        st_multiselect "Select Platforms:" [Some "All"; Some "Instagram"] ])%list,
     Uncaught (ValueError "not enough values to unpack (expected 2, got 1)")).
Proof. vm_compute. reflexivity. Qed.

(** * Further properties of the pipeline *)

(** ** The filter block *)

(** X1. Once 'All' is among the selected categories and among the selected
    platforms, whatever else is selected with it makes no difference; with no
    date range the whole table passes. *)
Theorem filter_All_bypasses :
  forall (data : list Row) (f f' : Filters),
    contains "All" (selected_categories f) = true ->
    contains "All" (selected_platforms f) = true ->
    contains "All" (selected_categories f') = true ->
    contains "All" (selected_platforms f') = true ->
    date_range f = date_range f' ->
    filtered_df data f = filtered_df data f' /\
    (date_range f = [] -> filtered_df data f = Ok data).
Proof.
  intros data f f' Hc Hp Hc' Hp' Hd.
  assert (E : forall g, contains "All" (selected_categories g) = true ->
                        contains "All" (selected_platforms g) = true ->
                        category_platform_filtered data g = data).
  { intros g H1 H2. unfold category_platform_filtered.
    now rewrite H1, H2. }
  unfold filtered_df. rewrite (E f Hc Hp), (E f' Hc' Hp'), Hd.
  split; [reflexivity|]. intros E0. now rewrite E0.
Qed.

Lemma filter_All_bypasses_witness :
  filtered_df Scenario.unified (mkFilters [] ["All"; "Beauty"] ["All"])
  = filtered_df Scenario.unified Scenario.no_filter /\
  filtered_df Scenario.unified (mkFilters [] ["All"; "Beauty"] ["All"])
  = Ok Scenario.unified.
Proof.
  destruct (filter_All_bypasses Scenario.unified
              (mkFilters [] ["All"; "Beauty"] ["All"]) Scenario.no_filter)
    as [H1 H2]; try reflexivity.
  split; [exact H1 | apply H2; reflexivity].
Defined.

Lemma filtered_df_In :
  forall (data df : list Row) (f : Filters),
    filtered_df data f = Ok df ->
    forall r,
      In r df <->
      In r data /\
      (contains "All" (selected_categories f) = true \/
       isin (category r) (selected_categories f) = true) /\
      (contains "All" (selected_platforms f) = true \/
       isin (platform r) (selected_platforms f) = true) /\
      (date_range f = [] \/
       exists start_date end_date,
         date_range f = [start_date; end_date] /\
         in_dates start_date end_date r = true).
Proof.
  intros data df f H r.
  assert (Hlen : (List.length (date_range f) = 0
                  \/ List.length (date_range f) = 2)%nat).
  { unfold filtered_df in H.
    destruct (date_range f) as [|s [|e [|x l]]]; simpl; auto; discriminate. }
  rewrite (filtered_df_passes data f Hlen) in H. injection H as <-.
  rewrite filter_In. unfold passes, in_categories, in_platforms.
  rewrite !andb_true_iff, !orb_true_iff.
  destruct (date_range f) as [|s [|e [|x l]]]; simpl in Hlen;
    try (destruct Hlen; discriminate).
  - intuition.
  - split.
    + intros [Hin [[Hc Hp] Hd]]. repeat split; auto.
      right. exists s, e. auto.
    + intros [Hin [Hc [Hp [Hd|[s' [e' [Hd Hin']]]]]]]; [discriminate|].
      injection Hd as <- <-. auto.
Qed.

(** X2. The rows of the filtered frame are exactly the rows of the table that
    pass each of the three conditions that is switched on. *)
Theorem filtered_df_rows :
  forall (data df : list Row) (f : Filters),
    filtered_df data f = Ok df ->
    forall r,
      In r df <->
      In r data /\
      (contains "All" (selected_categories f) = true \/
       isin (category r) (selected_categories f) = true) /\
      (contains "All" (selected_platforms f) = true \/
       isin (platform r) (selected_platforms f) = true) /\
      (date_range f = [] \/
       exists start_date end_date,
         date_range f = [start_date; end_date] /\
         in_dates start_date end_date r = true).
Proof. exact filtered_df_In. Qed.

Lemma filtered_df_rows_witness :
  In (unified_row Scenario.roster Scenario.payouts
        (mkTracking (Some 1%Z) (Timestamp 0) "influencer"
                    (Some (rupees 100))))
     Scenario.beauty_rows.
Proof.
  apply (filtered_df_rows Scenario.unified Scenario.beauty_rows
           Scenario.beauty_only).
  - reflexivity.
  - split; [left; reflexivity|].
    split; [right; reflexivity|].
    split; [left; reflexivity | left; reflexivity].
Defined.

(** X3. With a multiselect left with nothing selected, the filter block
    gives an empty frame when the date widget holds no date or a pair of
    dates, and raises [ValueError] at the unpacking of the date pair when it
    holds any other number of dates; on the empty frame every KPI is 0, the
    incremental ROAS too, whatever the organic revenue of the tracking
    table. *)
Theorem empty_selection_empties_frame :
  forall (data : list Row) (f : Filters) (tracking : list TrackingRecord),
    selected_categories f = [] \/ selected_platforms f = [] ->
    ((List.length (date_range f) = 0 \/ List.length (date_range f) = 2)%nat ->
     filtered_df data f = Ok []) /\
    (~ (List.length (date_range f) = 0 \/ List.length (date_range f) = 2)%nat ->
     exists msg, filtered_df data f = Raise (ValueError msg)) /\
    kpis tracking [] = {| kpi_total_revenue := 0%Qc;
                          kpi_total_payout := 0%Qc;
                          kpi_roi := 0%Qc;
                          kpi_incremental_roas := 0%Qc |}.
Proof.
  intros data f tracking Hsel. split; [|split; [|reflexivity]].
  - intros Hlen.
    rewrite (filtered_df_passes data f Hlen). f_equal.
    apply filter_none, Forall_forall. intros r _. unfold passes.
    destruct Hsel as [E|E].
    + unfold in_categories. rewrite E. simpl.
      now destruct (category r).
    + unfold in_platforms. rewrite E. simpl.
      destruct (platform r); simpl; now rewrite andb_false_r.
  - intros Hlen. apply filtered_df_raises.
    + intros E. apply Hlen. left. now rewrite E.
    + intros E. apply Hlen. now right.
Qed.

(** Nothing selected in the category box: with the date widget cleared the
    frame is empty, with a single date picked the block raises. *)
Lemma empty_selection_empties_frame_witness :
  filtered_df Scenario.unified (mkFilters [] [] ["All"]) = Ok [] /\
  (exists msg,
     filtered_df Scenario.unified (mkFilters [5%Z] [] ["All"])
     = Raise (ValueError msg)) /\
  kpis Scenario.tracking [] = {| kpi_total_revenue := 0%Qc;
                                 kpi_total_payout := 0%Qc;
                                 kpi_roi := 0%Qc;
                                 kpi_incremental_roas := 0%Qc |}.
Proof.
  destruct (empty_selection_empties_frame
              Scenario.unified (mkFilters [] [] ["All"]) Scenario.tracking
              (or_introl eq_refl)) as (H1 & _ & H3).
  destruct (empty_selection_empties_frame
              Scenario.unified (mkFilters [5%Z] [] ["All"]) Scenario.tracking
              (or_introl eq_refl)) as (_ & H2 & _).
  split; [apply H1; left; reflexivity|].
  split; [|exact H3].
  apply H2. simpl. intros [H|H]; discriminate H.
Defined.

(** X4. The date range runs from the midnight that starts its first day to the
    midnight that starts its last day: a row passes when its timestamp lies
    between the two, so a row of the last day with a time of day after
    midnight is filtered out, and so is every row without a date. *)
Theorem date_range_ends_at_midnight :
  forall (start_date end_date : Z) (r : Row),
    (in_dates start_date end_date r = true <->
     exists ns, date r = Timestamp ns /\
                (start_date * ns_per_day <= ns <= end_date * ns_per_day)%Z) /\
    (date r = NaT -> in_dates start_date end_date r = false) /\
    (forall ns, date r = Timestamp ns -> dt_date r = Some end_date ->
                (ns mod ns_per_day <> 0)%Z ->
                in_dates start_date end_date r = false).
Proof.
  intros s e r. unfold in_dates, date_ge, date_le, dt_date, pd_Timestamp.
  split; [|split].
  - destruct (date r) as [ns| |txt].
    + rewrite andb_true_iff, !Z.leb_le. split.
      * intros H. exists ns. split; [reflexivity | lia].
      * intros [ns' [E H]]. injection E as <-. lia.
    + split; [discriminate | intros [ns [E _]]; discriminate].
    + split; [discriminate | intros [ns [E _]]; discriminate].
  - intros ->. reflexivity.
  - intros ns -> E Hmod. injection E as <-.
    apply andb_false_iff. right. apply Z.leb_gt.
    pose proof (Z.div_mod ns ns_per_day) as Hdm.
    pose proof (Z.mod_pos_bound ns ns_per_day) as Hb.
    unfold ns_per_day in *. lia.
Qed.

Lemma date_range_ends_at_midnight_witness :
  in_dates 0 1 (mkRow None (Timestamp (ns_per_day + 1)) "organic" None None
                      None None None None) = false.
Proof.
  apply (date_range_ends_at_midnight 0 1
           (mkRow None (Timestamp (ns_per_day + 1)) "organic" None None
                  None None None None)) with (ns := (ns_per_day + 1)%Z).
  - reflexivity.
  - reflexivity.
  - discriminate.
Defined.

(** ** The two joins *)

Section MergeFacts.
Context {L R O : Type}.
Variable matches : L -> R -> bool.
Variable join : L -> option R -> O.

Lemma merge_left_cons (l : L) (left : list L) (right : list R) :
  merge_left matches join (l :: left) right =
  (merge_left matches join [l] right ++ merge_left matches join left right)%list.
Proof. apply (merge_left_app matches join [l] left right). Qed.

Lemma merge_left_single_length (l : L) (right : list R) :
  List.length (merge_left matches join [l] right) = copies matches right l.
Proof.
  unfold merge_left, copies. simpl. rewrite app_nil_r.
  destruct (filter (matches l) right) as [|m ms]; [reflexivity|].
  simpl. rewrite length_map. lia.
Qed.

(** A left merge makes one row of a left row without a match and one row
    per match otherwise. *)
Lemma merge_left_length (left : list L) (right : list R) :
  List.length (merge_left matches join left right)
  = list_sum (map (copies matches right) left).
Proof.
  induction left as [|l left IH]; [reflexivity|].
  rewrite merge_left_cons, length_app, merge_left_single_length, IH.
  reflexivity.
Qed.

Lemma merge_left_length_ge (left : list L) (right : list R) :
  (List.length left <= List.length (merge_left matches join left right))%nat.
Proof.
  rewrite merge_left_length.
  induction left as [|l left IH]; simpl; [lia|].
  unfold copies at 1. lia.
Qed.

Lemma find_filter (f : R -> bool) (right : list R) :
  find f right = match filter f right with
                 | [] => None
                 | m :: _ => Some m
                 end.
Proof.
  induction right as [|x right IH]; simpl; [reflexivity|].
  destruct (f x); [reflexivity | exact IH].
Qed.

(** When no left row has two matches, the merge is a lookup per row. *)
Lemma merge_left_lookup (left : list L) (right : list R) :
  (forall l, List.length (filter (matches l) right) <= 1)%nat ->
  merge_left matches join left right
  = map (fun l => join l (find (matches l) right)) left.
Proof.
  intros Hone. induction left as [|l left IH]; [reflexivity|].
  rewrite merge_left_cons, IH. simpl. f_equal.
  unfold merge_left. simpl. rewrite app_nil_r, find_filter.
  specialize (Hone l).
  destruct (filter (matches l) right) as [|m [|m' ms]]; simpl in *;
    try reflexivity; lia.
Qed.

End MergeFacts.

Lemma key_eqb_eq (a b : option Z) : key_eqb a b = true <-> a = b.
Proof.
  destruct a, b; simpl; try (split; [discriminate | congruence]);
    try (split; reflexivity).
  rewrite Z.eqb_eq. split; congruence.
Qed.

(** Keys that are not repeated match at most once. *)
Lemma unique_key_matches_once {R : Type} (key : R -> option Z)
    (k : option Z) (right : list R) :
  NoDup (map key right) ->
  (List.length (filter (fun r => key_eqb k (key r)) right) <= 1)%nat.
Proof.
  induction right as [|x right IH]; simpl; [lia|].
  intros Hnd. inversion Hnd as [|? ? Hnotin Hnd']; subst.
  destruct (key_eqb k (key x)) eqn:E; [|now apply IH].
  apply key_eqb_eq in E. subst k. simpl.
  rewrite (filter_none (fun r => key_eqb (key x) (key r))); [simpl; lia|].
  apply Forall_forall. intros y Hy.
  destruct (key_eqb (key x) (key y)) eqn:Ey; [|reflexivity].
  apply key_eqb_eq in Ey. exfalso. apply Hnotin. rewrite Ey.
  now apply in_map.
Qed.

Lemma sum_fillna (cells : list (option Qc)) :
  sum (map (fillna 0%Qc) cells) = sum cells.
Proof.
  induction cells as [|c cells IH]; simpl; [reflexivity|].
  destruct c; simpl; rewrite IH; [reflexivity | ring].
Qed.

Lemma join_and_fill_lookup (tracking : list TrackingRecord)
    (roster : list Influencer) (payouts : list PayoutRecord) :
  NoDup (map i_ID roster) ->
  NoDup (map pay_influencer_id payouts) ->
  join_and_fill tracking roster payouts
  = map (unified_row roster payouts) tracking.
Proof.
  intros Hr Hp. unfold join_and_fill, merge_payouts, merge_influencers.
  rewrite (merge_left_lookup _ join_influencer tracking roster)
    by (intros t; now apply (unique_key_matches_once i_ID)).
  rewrite (merge_left_lookup _ join_payout _ payouts)
    by (intros r; now apply (unique_key_matches_once pay_influencer_id)).
  rewrite !map_map. reflexivity.
Qed.

(** X5. With a roster that repeats no ID and a payouts table that repeats no
    influencer id, the unified table has exactly one row per tracking record,
    in the order of the tracking table, each joined with its one roster entry
    and its one payout record; the unfiltered total revenue is then the sum
    of the tracking table's revenue column. *)
Theorem join_with_unique_keys :
  forall (tracking : list TrackingRecord) (roster : list Influencer)
         (payouts : list PayoutRecord),
    NoDup (map i_ID roster) ->
    NoDup (map pay_influencer_id payouts) ->
    join_and_fill tracking roster payouts
    = map (unified_row roster payouts) tracking /\
    List.length (join_and_fill tracking roster payouts)
    = List.length tracking /\
    total_revenue (join_and_fill tracking roster payouts)
    = sum (map t_revenue tracking).
Proof.
  intros tracking roster payouts Hr Hp.
  pose proof (join_and_fill_lookup tracking roster payouts Hr Hp) as E.
  split; [exact E|]. rewrite E. split; [apply length_map|].
  unfold total_revenue. rewrite map_map. simpl.
  rewrite <- (map_map t_revenue (fillna 0%Qc)). apply sum_fillna.
Qed.

Lemma join_with_unique_keys_witness :
  join_and_fill Scenario.tracking Scenario.roster Scenario.payouts
  = map (unified_row Scenario.roster Scenario.payouts) Scenario.tracking /\
  List.length (join_and_fill Scenario.tracking Scenario.roster
                             Scenario.payouts)
  = List.length Scenario.tracking /\
  total_revenue (join_and_fill Scenario.tracking Scenario.roster
                               Scenario.payouts)
  = sum (map t_revenue Scenario.tracking).
Proof.
  apply join_with_unique_keys.
  - repeat constructor. intros [].
  - repeat constructor. intros [].
Defined.






Lemma merge_left_rows {L R O : Type} (matches : L -> R -> bool)
    (join : L -> option R -> O) (left : list L) (right : list R) (o : O) :
  In o (merge_left matches join left right) ->
  exists l m, In l left /\ o = join l m.
Proof.
  intros H. apply merge_left_In in H.
  destruct H as [l [Hl [[-> _]|[r [_ [_ ->]]]]]].
  - exists l, None. auto.
  - exists l, (Some r). auto.
Qed.

(** X7. The left merges never lose a row: the unified table has at least as many
    rows as the tracking table, a tracking record is repeated once per
    roster entry with its influencer id, and every unified row has the
    influencer id, date, source and (filled) revenue of a tracking record.
    The post table keeps every post in the same way. *)
Theorem left_merges_keep_every_row :
  forall (tracking : list TrackingRecord) (roster : list Influencer)
         (payouts : list PayoutRecord) (posts : list Post),
    (List.length tracking
     <= List.length (join_and_fill tracking roster payouts))%nat /\
    List.length (merge_influencers tracking roster)
    = list_sum (map (copies (fun t i => key_eqb (t_influencer_id t) (i_ID i))
                            roster) tracking) /\
    (forall r, In r (join_and_fill tracking roster payouts) ->
       exists t, In t tracking /\
                 influencer_id r = t_influencer_id t /\
                 date r = t_date t /\ source r = t_source t /\
                 revenue r = fillna 0%Qc (t_revenue t)) /\
    List.length (post_performance posts roster)
    = list_sum (map (copies (fun p i => key_eqb (p_influencer_id p) (i_ID i))
                            roster) posts).
Proof.
  intros tracking roster payouts posts. repeat split.
  - unfold join_and_fill, merge_payouts. rewrite length_map.
    etransitivity; [|apply merge_left_length_ge].
    apply merge_left_length_ge.
  - apply merge_left_length.
  - intros r Hr. unfold join_and_fill in Hr.
    apply in_map_iff in Hr. destruct Hr as [r1 [<- Hr1]].
    apply merge_left_rows in Hr1. destruct Hr1 as [r0 [p [Hr0 ->]]].
    apply merge_left_rows in Hr0. destruct Hr0 as [t [i [Ht ->]]].
    exists t. repeat split; auto.
  - apply merge_left_length.
Qed.

Lemma left_merges_keep_every_row_witness :
  exists t, In t Scenario.tracking /\
            influencer_id
              (unified_row Scenario.roster Scenario.payouts
                 (mkTracking None (Timestamp 0) "organic"
                             (Some (rupees 50))))
            = t_influencer_id t /\
            date (unified_row Scenario.roster Scenario.payouts
                    (mkTracking None (Timestamp 0) "organic"
                                (Some (rupees 50))))
            = t_date t /\
            source (unified_row Scenario.roster Scenario.payouts
                      (mkTracking None (Timestamp 0) "organic"
                                  (Some (rupees 50))))
            = t_source t /\
            revenue (unified_row Scenario.roster Scenario.payouts
                       (mkTracking None (Timestamp 0) "organic"
                                   (Some (rupees 50))))
            = fillna 0%Qc (t_revenue t).
Proof.
  apply (left_merges_keep_every_row Scenario.tracking Scenario.roster
           Scenario.payouts []).
  right. left. reflexivity.
Defined.

(** ** Grouping *)

Lemma string_compare_refl (s : string) : String.compare s s = Eq.
Proof.
  induction s as [|a s IH]; simpl; [reflexivity|].
  unfold Ascii.compare. now rewrite N.compare_refl.
Qed.

Lemma string_compare_lt_trans (s1 s2 s3 : string) :
  String.compare s1 s2 = Lt -> String.compare s2 s3 = Lt ->
  String.compare s1 s3 = Lt.
Proof.
  revert s2 s3. induction s1 as [|a s1 IH]; intros [|b s2] [|c s3];
    simpl; try discriminate; try reflexivity.
  unfold Ascii.compare.
  destruct (N.compare_spec (Ascii.N_of_ascii a) (Ascii.N_of_ascii b))
    as [Eab|Lab|Gab]; try discriminate;
  destruct (N.compare_spec (Ascii.N_of_ascii b) (Ascii.N_of_ascii c))
    as [Ebc|Lbc|Gbc]; try discriminate; intros H1 H2.
  - rewrite Eab, Ebc, N.compare_refl. now apply (IH s2).
  - rewrite Eab. now apply N.compare_lt_iff in Lbc as ->.
  - rewrite <- Ebc. now apply N.compare_lt_iff in Lab as ->.
  - assert (Hac : (Ascii.N_of_ascii a < Ascii.N_of_ascii c)%N) by lia.
    now apply N.compare_lt_iff in Hac as ->.
Qed.

Lemma string_ltb_irrefl (s : string) : String.ltb s s = false.
Proof. unfold String.ltb. now rewrite string_compare_refl. Qed.

Lemma string_ltb_trans (s1 s2 s3 : string) :
  String.ltb s1 s2 = true -> String.ltb s2 s3 = true ->
  String.ltb s1 s3 = true.
Proof.
  unfold String.ltb. intros H1 H2.
  destruct (String.compare s1 s2) eqn:E1; try discriminate.
  destruct (String.compare s2 s3) eqn:E2; try discriminate.
  now rewrite (string_compare_lt_trans s1 s2 s3 E1 E2).
Qed.

Lemma string_ltb_total (s1 s2 : string) :
  String.eqb s1 s2 = false -> String.ltb s1 s2 = false ->
  String.ltb s2 s1 = true.
Proof.
  unfold String.ltb. intros Hne Hlt.
  rewrite (String.compare_antisym s2 s1).
  destruct (String.compare s1 s2) eqn:E; simpl; try reflexivity;
    try discriminate.
  apply String.compare_eq_iff in E. apply String.eqb_neq in Hne.
  contradiction.
Qed.

Section GroupOrder.
Context {K : Type}.
Variable col : Row -> option K.
Variables eqb ltb : K -> K -> bool.
Hypothesis eqb_eq : forall a b, eqb a b = true <-> a = b.
Hypothesis ltb_irrefl : forall a, ltb a a = false.
Hypothesis ltb_trans :
  forall a b c, ltb a b = true -> ltb b c = true -> ltb a c = true.
Hypothesis ltb_total :
  forall a b, eqb a b = false -> ltb a b = false -> ltb b a = true.

Lemma insert_key_sorted (k : K) (ks : list K) :
  StronglySorted (fun a b => ltb a b = true) ks ->
  StronglySorted (fun a b => ltb a b = true) (insert_key eqb ltb k ks).
Proof.
  induction 1 as [|x ks Hs IH Hx]; simpl.
  - repeat constructor.
  - destruct (eqb k x) eqn:E; [now constructor|].
    destruct (ltb k x) eqn:Hlt.
    + constructor; [now constructor|].
      constructor; [exact Hlt|].
      eapply Forall_impl; [|exact Hx]. intros y Hy.
      now apply (ltb_trans k x y).
    + constructor; [exact IH|].
      apply Forall_forall. intros y Hy.
      apply (insert_key_In eqb ltb eqb_eq) in Hy. destruct Hy as [->|Hy].
      * now apply ltb_total.
      * rewrite Forall_forall in Hx. now apply Hx.
Qed.

Lemma group_keys_sorted (df : list Row) :
  StronglySorted (fun a b => ltb a b = true) (group_keys col eqb ltb df).
Proof.
  induction df as [|r df IH]; simpl; [constructor|].
  destruct (col r); [now apply insert_key_sorted | exact IH].
Qed.

Lemma sorted_NoDup (ks : list K) :
  StronglySorted (fun a b => ltb a b = true) ks -> NoDup ks.
Proof.
  induction 1 as [|x ks Hs IH Hx]; constructor; [|exact IH].
  intros Hin. rewrite Forall_forall in Hx. specialize (Hx x Hin).
  now rewrite ltb_irrefl in Hx.
Qed.

Lemma groupby_agg_keys (df : list Row) :
  map g_key (groupby_agg col eqb ltb df) = group_keys col eqb ltb df.
Proof.
  unfold groupby_agg. rewrite map_map. simpl. apply map_id.
Qed.





End GroupOrder.

Lemma Z_ltb_trans (a b c : Z) :
  Z.ltb a b = true -> Z.ltb b c = true -> Z.ltb a c = true.
Proof. rewrite !Z.ltb_lt. lia. Qed.

Lemma Z_ltb_total (a b : Z) :
  Z.eqb a b = false -> Z.ltb a b = false -> Z.ltb b a = true.
Proof. rewrite Z.eqb_neq, Z.ltb_ge, Z.ltb_lt. lia. Qed.

(** X8. Every grouped table has one row per value of its grouping column, in
    strictly ascending order of that value: categories and platforms in
    string order, influencer IDs and calendar days in numeric order. A value
    has a row exactly when some row of the frame carries it. *)
Theorem grouped_tables_sorted_by_key :
  forall (df : list Row),
    (StronglySorted (fun a b => String.ltb a b = true)
                    (map pf_key (category_revenue df)) /\
     NoDup (map pf_key (category_revenue df)) /\
     forall c, In c (map pf_key (category_revenue df)) <->
               exists r, In r df /\ category r = Some c) /\
    (StronglySorted (fun a b => String.ltb a b = true)
                    (map fst (platform_revenue df)) /\
     NoDup (map fst (platform_revenue df)) /\
     forall c, In c (map fst (platform_revenue df)) <->
               exists r, In r df /\ platform r = Some c) /\
    (StronglySorted (fun a b => Z.ltb a b = true)
                    (map g_key (groupby_ID df)) /\
     NoDup (map g_key (groupby_ID df)) /\
     forall i, In i (map g_key (groupby_ID df)) <->
               exists r, In r df /\ ID r = Some i) /\
    (StronglySorted (fun a b => Z.ltb a b = true)
                    (map g_key (time_series_data df)) /\
     NoDup (map g_key (time_series_data df)) /\
     forall d, In d (map g_key (time_series_data df)) <->
               exists r, In r df /\ dt_date r = Some d).
Proof.
  intros df.
  assert (Hs : forall col,
            StronglySorted (fun a b => String.ltb a b = true)
              (group_keys col String.eqb String.ltb df))
    by (intros col;
        exact (group_keys_sorted col String.eqb String.ltb String.eqb_eq
                 string_ltb_trans string_ltb_total df)).
  assert (Hz : forall col,
            StronglySorted (fun a b => Z.ltb a b = true)
              (group_keys col Z.eqb Z.ltb df))
    by (intros col;
        exact (group_keys_sorted col Z.eqb Z.ltb Z.eqb_eq
                 Z_ltb_trans Z_ltb_total df)).
  assert (Ec : map pf_key (category_revenue df)
               = group_keys category String.eqb String.ltb df).
  { unfold category_revenue, groupby_category. rewrite map_map. simpl.
    apply groupby_agg_keys. }
  assert (Ep : map fst (platform_revenue df)
               = group_keys platform String.eqb String.ltb df).
  { unfold platform_revenue, groupby_platform. rewrite map_map. simpl.
    apply groupby_agg_keys. }
  unfold groupby_ID, time_series_data. rewrite Ec, Ep, !groupby_agg_keys.
  repeat split;
    try apply Hs; try apply Hz;
    try (apply (sorted_NoDup String.ltb string_ltb_irrefl), Hs);
    try (apply (sorted_NoDup Z.ltb Z.ltb_irrefl), Hz);
    try (apply (group_keys_In _ String.eqb String.ltb String.eqb_eq));
    try (apply (group_keys_In _ Z.eqb Z.ltb Z.eqb_eq)).
Qed.

Lemma grouped_tables_sorted_by_key_witness :
  In "Organic" (map pf_key (category_revenue Scenario.unified)).
Proof.
  apply (grouped_tables_sorted_by_key Scenario.unified).
  exists (fill_row (join_payout
            (join_influencer
               (mkTracking None (Timestamp 0) "organic" (Some (rupees 50)))
               None) None)).
  split; [right; left; reflexivity | reflexivity].
Defined.





(** ** The ROI column, again *)





Lemma replace_and_fill_guarded {K : Type} (g : Group K) :
  let p := replace_and_fill (add_ROI g) in
  is_finite (pf_ROI p) = true /\
  (pf_total_payout p = 0%Qc -> pf_ROI p = Fin 0%Qc).
Proof. apply replace_and_fill_finite. Qed.

Lemma In_head {A : Type} (n : nat) (l : list A) (x : A) :
  In x (head n l) -> In x l.
Proof.
  unfold head. intros H. rewrite <- (firstn_skipn n l).
  apply in_or_app. now left.
Qed.

Lemma In_tail {A : Type} (n : nat) (l : list A) (x : A) :
  In x (tail n l) -> In x l.
Proof.
  unfold tail. intros H. rewrite <- (firstn_skipn (List.length l - n) l).
  apply in_or_app. now right.
Qed.

Lemma influencer_performance_merged_guarded (df : list Row)
    (roster : list Influencer) (p : InfluencerPerf) :
  In p (influencer_performance_merged df roster) ->
  is_finite (ip_ROI p) = true /\
  (ip_total_payout p = 0%Qc -> ip_ROI p = Fin 0%Qc).
Proof.
  intros Hp. unfold influencer_performance_merged, merge_inner in Hp.
  apply in_flat_map in Hp. destruct Hp as [q [Hq Hp]].
  apply in_map_iff in Hp. destruct Hp as [i [<- _]].
  apply in_map_iff in Hq. destruct Hq as [g [<- Hg]].
  apply in_map_iff in Hg. destruct Hg as [g0 [<- _]].
  apply (replace_and_fill_guarded g0).
Qed.

(** X11. Every table that goes through the replace-and-fill pass has a finite ROI
    in every row, and ROI 0 in the rows whose total payout is 0: the report's
    category and platform tables, the ranked per-influencer table and both
    leaderboards. *)
Theorem guarded_tables_have_finite_ROI :
  forall (df : list Row) (roster : list Influencer),
    (forall p, In p (category_performance df) \/
               In p (platform_performance df) ->
               is_finite (pf_ROI p) = true /\
               (pf_total_payout p = 0%Qc -> pf_ROI p = Fin 0%Qc)) /\
    (forall p, In p (influencer_performance df roster) \/
               In p (top_10 df roster) \/
               In p (poor_performing df roster) ->
               is_finite (ip_ROI p) = true /\
               (ip_total_payout p = 0%Qc -> ip_ROI p = Fin 0%Qc)).
Proof.
  intros df roster. split.
  - intros p [Hp|Hp];
      unfold category_performance, platform_performance in Hp;
      apply in_map_iff in Hp; destruct Hp as [q [<- Hq]];
      apply in_map_iff in Hq; destruct Hq as [g [<- _]];
      apply (replace_and_fill_guarded g).
  - assert (Hrank : forall p, In p (influencer_performance df roster) ->
                      In p (influencer_performance_merged df roster)).
    { intros p Hp. unfold influencer_performance in Hp.
      eapply Permutation_in; [apply sort_values_Permutation | exact Hp]. }
    intros p [Hp|[Hp|Hp]];
      apply (influencer_performance_merged_guarded df roster), Hrank.
    + exact Hp.
    + now apply (In_head 10).
    + now apply (In_tail 10).
Qed.

Lemma guarded_tables_have_finite_ROI_witness :
  is_finite (pf_ROI (replace_and_fill
                       (add_ROI (mkGroup "Organic" (rupees 50) 0%Qc))))
  = true /\
  (pf_total_payout (replace_and_fill
                      (add_ROI (mkGroup "Organic" (rupees 50) 0%Qc)))
   = 0%Qc ->
   pf_ROI (replace_and_fill (add_ROI (mkGroup "Organic" (rupees 50) 0%Qc)))
   = Fin 0%Qc).
Proof.
  apply (guarded_tables_have_finite_ROI Scenario.unified Scenario.roster).
  left. right. left.
  unfold replace_and_fill, add_ROI. simpl.
  repeat f_equal; apply Qc_is_canon; reflexivity.
Defined.

(** ** The leaderboards *)

(** X12. Both leaderboard tables hold ten rows, or all of them when there are
    fewer; with ten influencers or fewer the "Poor Performing" table is the
    "Top 10" table, row for row. *)
Theorem small_leaderboards_coincide :
  forall (df : list Row) (roster : list Influencer),
    let n := List.length (influencer_performance_merged df roster) in
    List.length (top_10 df roster) = Nat.min 10 n /\
    List.length (poor_performing df roster) = Nat.min 10 n /\
    ((n <= 10)%nat ->
     top_10 df roster = influencer_performance df roster /\
     poor_performing df roster = influencer_performance df roster).
Proof.
  intros df roster n. subst n.
  unfold top_10, poor_performing, head, tail, influencer_performance.
  rewrite length_firstn, length_skipn, !sort_values_length.
  repeat split; try lia.
  - apply firstn_all2. rewrite sort_values_length. lia.
  - replace (_ - 10)%nat with 0%nat by lia. reflexivity.
Qed.

Lemma small_leaderboards_coincide_witness :
  top_10 Ranking.unified Ranking.roster
  = influencer_performance Ranking.unified Ranking.roster /\
  poor_performing Ranking.unified Ranking.roster
  = influencer_performance Ranking.unified Ranking.roster.
Proof.
  apply (small_leaderboards_coincide Ranking.unified Ranking.roster).
  vm_compute. repeat constructor.
Defined.

(** ** The lists of the report *)

Lemma sorted_firstn {A : Type} (R : A -> A -> Prop) (n : nat) (l : list A) :
  StronglySorted R l -> StronglySorted R (firstn n l).
Proof.
  intros H. revert n. induction H as [|x l Hs IH Hx]; intros [|n]; simpl;
    try constructor.
  - apply IH.
  - apply Forall_forall. intros y Hy. rewrite Forall_forall in Hx.
    apply Hx. rewrite <- (firstn_skipn n l). apply in_or_app. now left.
Qed.

Lemma sorted_filter {A : Type} (R : A -> A -> Prop) (f : A -> bool)
    (l : list A) :
  StronglySorted R l -> StronglySorted R (filter f l).
Proof.
  induction 1 as [|x l Hs IH Hx]; simpl; [constructor|].
  destruct (f x); [|exact IH]. constructor; [exact IH|].
  apply Forall_forall. intros y Hy. apply filter_In in Hy.
  rewrite Forall_forall in Hx. now apply Hx.
Qed.

Lemma filter_length_le {A : Type} (f : A -> bool) (l : list A) :
  (List.length (filter f l) <= List.length l)%nat.
Proof.
  induction l as [|x l IH]; simpl; [lia|]. destruct (f x); simpl; lia.
Qed.

Lemma filter_length_lt {A : Type} (f : A -> bool) (l : list A) (x : A) :
  In x l -> f x = false ->
  (List.length (filter f l) < List.length l)%nat.
Proof.
  induction l as [|y l IH]; simpl; [intros []|].
  intros [->|Hin] Hx.
  - rewrite Hx. pose proof (filter_length_le f l). lia.
  - specialize (IH Hin Hx). destruct (f y); simpl; lia.
Qed.

Lemma performance_not_nan (groups : list (Group string)) :
  Forall (not_nan pf_ROI) (map replace_and_fill (map add_ROI groups)).
Proof.
  apply Forall_forall. intros p Hp.
  apply in_map_iff in Hp. destruct Hp as [q [<- Hq]].
  apply in_map_iff in Hq. destruct Hq as [g [<- _]].
  unfold not_nan. simpl.
  pose proof (fillna0_replace_inf_finite
                (truediv (g_total_revenue g - g_total_payout g)
                         (g_total_payout g))) as H.
  now destruct (fillna0 _).
Qed.

(** What [filter not_Organic (head 3 (sort_values pf_ROI false table))]
    gives for a table without NaN. *)
Lemma top_three_without_Organic (table : list (Perf string)) :
  Forall (not_nan pf_ROI) table ->
  let top := filter not_Organic (head 3 (sort_values pf_ROI false table)) in
  (List.length top <= 3)%nat /\
  Forall (fun p => pf_key p <> "Organic") top /\
  StronglySorted (key_ge pf_ROI) top /\
  incl top table /\
  ((exists p, In p (head 3 (sort_values pf_ROI false table)) /\
              pf_key p = "Organic") ->
   (List.length top <= 2)%nat).
Proof.
  intros Hnn top. subst top. unfold head.
  assert (H3 : (List.length (firstn 3 (sort_values pf_ROI false table)) <= 3)
               %nat) by (rewrite length_firstn; lia).
  repeat split.
  - pose proof (filter_length_le not_Organic
                  (firstn 3 (sort_values pf_ROI false table))). lia.
  - apply Forall_forall. intros p Hp. apply filter_In in Hp.
    destruct Hp as [_ Hp]. unfold not_Organic in Hp.
    apply negb_true_iff, String.eqb_neq in Hp. exact Hp.
  - apply sorted_filter, sorted_firstn. now apply sort_values_descending.
  - intros p Hp. apply filter_In in Hp. destruct Hp as [Hp _].
    apply (In_head 3) in Hp.
    eapply Permutation_in; [apply sort_values_Permutation | exact Hp].
  - intros [p [Hp Hk]].
    assert (Hf : not_Organic p = false).
    { unfold not_Organic. rewrite Hk. reflexivity. }
    pose proof (filter_length_lt not_Organic _ p Hp Hf). lia.
Qed.

(** X13. The report's "top performing" categories and platforms: at most three,
    never "Organic", in descending order of ROI, all taken from the guarded
    table. "Organic" is removed after the first three are taken, so when it
    ranks among the first three at most two entries are listed. The two
    influencer lists have three entries, or all when there are fewer. *)
Theorem report_lists :
  forall (df : list Row) (roster : list Influencer),
    let r := generate_detailed_report df roster in
    let n := List.length (influencer_performance_merged df roster) in
    ((List.length (top_categories r) <= 3)%nat /\
     Forall (fun p => pf_key p <> "Organic") (top_categories r) /\
     StronglySorted (key_ge pf_ROI) (top_categories r) /\
     incl (top_categories r) (category_performance df) /\
     ((exists p,
         In p (head 3 (sort_values pf_ROI false (category_performance df)))
         /\ pf_key p = "Organic") ->
      (List.length (top_categories r) <= 2)%nat)) /\
    ((List.length (top_platforms r) <= 3)%nat /\
     Forall (fun p => pf_key p <> "Organic") (top_platforms r) /\
     StronglySorted (key_ge pf_ROI) (top_platforms r) /\
     incl (top_platforms r) (platform_performance df) /\
     ((exists p,
         In p (head 3 (sort_values pf_ROI false (platform_performance df)))
         /\ pf_key p = "Organic") ->
      (List.length (top_platforms r) <= 2)%nat)) /\
    List.length (top_influencers r) = Nat.min 3 n /\
    List.length (poor_influencers r) = Nat.min 3 n /\
    StronglySorted (key_ge ip_ROI) (top_influencers r) /\
    StronglySorted (key_le ip_ROI) (poor_influencers r).
Proof.
  intros df roster r n. subst r n.
  split; [|split; [|repeat split]].
  - apply (top_three_without_Organic (category_performance df)).
    apply performance_not_nan.
  - apply (top_three_without_Organic (platform_performance df)).
    apply performance_not_nan.
  - rewrite report_top_influencers. unfold head.
    now rewrite length_firstn, sort_values_length.
  - rewrite report_poor_influencers. unfold head.
    now rewrite length_firstn, sort_values_length.
  - rewrite report_top_influencers. apply sorted_firstn.
    apply sort_values_descending, influencer_performance_merged_not_nan.
  - rewrite report_poor_influencers. apply sorted_firstn.
    apply sort_values_ascending, influencer_performance_merged_not_nan.
Qed.

(** On the unfiltered scenario "Organic" is second of two categories, so one
    category is listed. *)
Lemma report_lists_witness :
  (List.length
     (top_categories
        (generate_detailed_report Scenario.unified Scenario.roster))
   <= 2)%nat.
Proof.
  apply (report_lists Scenario.unified Scenario.roster).
  exists (nth 1 (head 3 (sort_values pf_ROI false
                           (category_performance Scenario.unified)))
              (mkPerf "" 0%Qc 0%Qc NaN)).
  split.
  - vm_compute. right. left. reflexivity.
  - vm_compute. reflexivity.
Defined.

(** ** How a run ends *)

Lemma join_and_fill_dates (t : TrackingRecord) roster payouts (r : Row) :
  In r (join_and_fill [t] roster payouts) -> date r = t_date t.
Proof.
  intros Hr. unfold join_and_fill in Hr.
  apply in_map_iff in Hr. destruct Hr as [r1 [<- Hr1]].
  apply merge_left_rows in Hr1. destruct Hr1 as [r0 [p [Hr0 ->]]].
  apply merge_left_rows in Hr0. destruct Hr0 as [t' [i [[<-|[]] ->]]].
  reflexivity.
Qed.

Lemma existsb_constant {A : Type} (f : A -> bool) (b : bool) (l : list A) :
  l <> [] -> Forall (fun x => f x = b) l -> existsb f l = b.
Proof.
  intros Hne H. induction H as [|x l Hx Hl IH]; [congruence|].
  simpl. rewrite Hx. destruct b; [reflexivity|]. simpl.
  destruct l as [|y l]; [reflexivity|]. apply IH. discriminate.
Qed.

(** The unified table has a date that cannot be parsed exactly when the
    tracking table has one. *)
Lemma unparseable_join (tracking : list TrackingRecord) roster payouts :
  existsb unparseable (join_and_fill tracking roster payouts)
  = existsb bad_date tracking.
Proof.
  induction tracking as [|t tracking IH]; [reflexivity|].
  change (t :: tracking) with ([t] ++ tracking)%list.
  rewrite join_and_fill_app, !existsb_app, IH. f_equal. simpl.
  rewrite orb_false_r. apply existsb_constant.
  - apply join_and_fill_not_nil.
  - apply Forall_forall. intros r Hr. unfold unparseable, bad_date.
    now rewrite (join_and_fill_dates t roster payouts r Hr).
Qed.

Lemma read_all_Ok (fs : Files) (t : Tables) :
  read_all fs = Ok t ->
  influencers_csv fs = Some (influencers_df t) /\
  posts_csv fs = Some (posts_df t) /\
  tracking_data_csv fs = Some (tracking_df t) /\
  payouts_csv fs = Some (payouts_df t).
Proof.
  unfold read_all, read_csv.
  destruct (influencers_csv fs), (posts_csv fs), (tracking_data_csv fs),
    (payouts_csv fs); try discriminate.
  intros H. injection H as <-. repeat split.
Qed.

Lemma read_all_Raise (fs : Files) (e : exn) :
  read_all fs = Raise e -> e = FileNotFoundError /\ some_file_missing fs.
Proof.
  unfold read_all, read_csv, some_file_missing.
  destruct (influencers_csv fs), (posts_csv fs), (tracking_data_csv fs),
    (payouts_csv fs); try discriminate;
    intros H; injection H as <-; (split; [reflexivity|]); tauto.
Qed.

(** A run that has all four files, by the three ways it can go. *)
Lemma run_with_all_files (fs : Files) (w : Widgets) (t : Tables) :
  read_all fs = Ok t ->
  let data := join_and_fill (tracking_df t) (influencers_df t)
                            (payouts_df t) in
  (existsb bad_date (tracking_df t) = true ->
   dashboard fs w = (banner, Uncaught DateParseError)) /\
  (existsb bad_date (tracking_df t) = false ->
   forall e, filtered_df data (w_filters w) = Raise e ->
   dashboard fs w
   = ((banner ++ sidebar data (influencers_df t))%list, Uncaught e)) /\
  (existsb bad_date (tracking_df t) = false ->
   forall df, filtered_df data (w_filters w) = Ok df ->
   snd (dashboard fs w) = Done tt /\
   firstn 7 (fst (dashboard fs w))
   = (banner ++ sidebar data (influencers_df t))%list /\
   In (st_metric "Total Revenue" (total_revenue df)) (fst (dashboard fs w)) /\
   In (st_metric "ROI" (roi df)) (fst (dashboard fs w)) /\
   (w_button w = true ->
    In (st_report (generate_detailed_report df (influencers_df t)))
       (fst (dashboard fs w)) /\
    In (st_download_button "Download Report as Text"
          (generate_detailed_report df (influencers_df t)))
       (fst (dashboard fs w))) /\
   (w_button w = false ->
    forall r label, ~ In (st_report r) (fst (dashboard fs w)) /\
                    ~ In (st_download_button label r)
                         (fst (dashboard fs w)))).
Proof.
  intros Hread data. subst data.
  unfold dashboard, ingest. rewrite Hread.
  cbn [bind render ret app]. unfold campaign_data, to_datetime.
  rewrite unparseable_join.
  split; [|split].
  - intros ->. reflexivity.
  - intros -> e He. cbn [bind render ret run_result]. rewrite He.
    reflexivity.
  - intros -> df Hdf. cbn [bind render ret run_result]. rewrite Hdf.
    destruct (w_button w); cbn [bind render ret run_result app fst snd].
    + repeat split; try (simpl; tauto); discriminate.
    + repeat split; try (simpl; tauto); try discriminate;
        simpl; intuition discriminate.
Qed.

(** X14. The run ends in [st.stop()] exactly when one of the four CSV files is
    missing: with all four present it either completes or ends in an
    exception nobody catches. *)
Theorem stops_exactly_when_a_file_is_missing :
  forall (fs : Files) (w : Widgets),
    snd (dashboard fs w) = Stopped <-> some_file_missing fs.
Proof.
  intros fs w. split.
  - destruct (read_all fs) as [t|e] eqn:Hread.
    + destruct (run_with_all_files fs w t Hread) as [Hbad [Hraise Hok]].
      destruct (existsb bad_date (tracking_df t)) eqn:Eb.
      * rewrite (Hbad eq_refl). discriminate.
      * destruct (filtered_df
                    (join_and_fill (tracking_df t) (influencers_df t)
                                   (payouts_df t)) (w_filters w))
          as [df|e] eqn:Ef.
        -- destruct (Hok eq_refl df eq_refl) as [-> _]. discriminate.
        -- rewrite (Hraise eq_refl e eq_refl). discriminate.
    + intros _. now apply (read_all_Raise fs e).
  - intros H. unfold dashboard, ingest.
    rewrite (read_all_missing fs H). reflexivity.
Qed.

Lemma stops_exactly_when_a_file_is_missing_witness :
  snd (dashboard (mkFiles None (Some []) (Some Scenario.tracking)
                          (Some Scenario.payouts))
                 (mkWidgets Scenario.no_filter false)) = Stopped.
Proof.
  apply stops_exactly_when_a_file_is_missing. left. reflexivity.
Defined.

(** X15. With all four files present, one date of the tracking table that cannot
    be parsed ends the run before the sidebar is rendered; otherwise a date
    tuple that does not unpack ends it right after the sidebar, before any
    metric. Neither exception is caught. *)
Theorem uncaught_exceptions :
  forall (fs : Files) (w : Widgets) (t : Tables),
    read_all fs = Ok t ->
    (existsb bad_date (tracking_df t) = true ->
     dashboard fs w = (banner, Uncaught DateParseError)) /\
    (existsb bad_date (tracking_df t) = false ->
     ~ unpacks (w_filters w) ->
     exists msg,
       dashboard fs w
       = ((banner ++ sidebar (join_and_fill (tracking_df t) (influencers_df t)
                                            (payouts_df t))
                             (influencers_df t))%list,
          Uncaught (ValueError msg))).
Proof.
  intros fs w t Hread.
  destruct (run_with_all_files fs w t Hread) as [Hbad [Hraise _]].
  split; [exact Hbad|]. intros Eb Hun.
  destruct (filtered_df_raises
              (join_and_fill (tracking_df t) (influencers_df t)
                             (payouts_df t)) (w_filters w)) as [msg Hmsg].
  - intros E. apply Hun. left. now rewrite E.
  - intros E. apply Hun. now right.
  - exists msg. now apply Hraise.
Qed.

Lemma uncaught_exceptions_witness :
  dashboard
    (mkFiles (Some Scenario.roster) (Some [])
             (Some [mkTracking (Some 1%Z) (Unparseable "31/31/2024")
                               "influencer" (Some (rupees 100))])
             (Some Scenario.payouts))
    (mkWidgets Scenario.no_filter true)
  = (banner, Uncaught DateParseError).
Proof.
  refine (proj1 (uncaught_exceptions _ _
                   (mkTables Scenario.roster []
                      [mkTracking (Some 1%Z) (Unparseable "31/31/2024")
                                  "influencer" (Some (rupees 100))]
                      Scenario.payouts) _) _); reflexivity.
Defined.

(** X16. With all four files present, every date parsed and a date tuple that
    unpacks, the run completes: it renders the heading, the sidebar and the
    KPIs of the filtered frame, and the report and its download button when,
    and only when, the button is pressed; both carry the report of the same
    filtered frame. *)
Theorem run_completes :
  forall (fs : Files) (w : Widgets) (t : Tables),
    read_all fs = Ok t ->
    existsb bad_date (tracking_df t) = false ->
    unpacks (w_filters w) ->
    let data := join_and_fill (tracking_df t) (influencers_df t)
                              (payouts_df t) in
    let df := filter (passes (w_filters w)) data in
    let page := fst (dashboard fs w) in
    snd (dashboard fs w) = Done tt /\
    firstn 7 page = (banner ++ sidebar data (influencers_df t))%list /\
    In (st_metric "Total Revenue" (total_revenue df)) page /\
    In (st_metric "ROI" (roi df)) page /\
    (w_button w = true ->
     In (st_report (generate_detailed_report df (influencers_df t))) page /\
     In (st_download_button "Download Report as Text"
           (generate_detailed_report df (influencers_df t))) page) /\
    (w_button w = false ->
     forall r label, ~ In (st_report r) page /\
                     ~ In (st_download_button label r) page).
Proof.
  intros fs w t Hread Eb Hun data df page. subst data df page.
  destruct (run_with_all_files fs w t Hread) as [_ [_ Hok]].
  apply (Hok Eb). now apply filtered_df_passes.
Qed.

Lemma run_completes_witness :
  snd (dashboard (mkFiles (Some Scenario.roster) (Some [])
                          (Some Scenario.tracking) (Some Scenario.payouts))
                 (mkWidgets Scenario.beauty_only true)) = Done tt.
Proof.
  refine (proj1 (run_completes _ _
                   (mkTables Scenario.roster [] Scenario.tracking
                             Scenario.payouts) _ _ _)).
  - reflexivity.
  - reflexivity.
  - left. reflexivity.
Defined.

(** ** The sidebar defaults *)

Lemma option_string_eqb_eq (a b : option string) :
  option_string_eqb a b = true <-> a = b.
Proof.
  destruct a, b; simpl; try (split; [discriminate | congruence]);
    try (split; reflexivity).
  rewrite String.eqb_eq. split; congruence.
Qed.

Lemma unique_step_spec (cells seen : list (option string)) :
  NoDup seen ->
  let out := fold_left (fun seen c => if existsb (option_string_eqb c) seen
                                      then seen else c :: seen) cells seen in
  NoDup out /\ (forall c, In c out <-> In c seen \/ In c cells) /\
  exists added, out = (added ++ seen)%list.
Proof.
  revert seen. induction cells as [|c cells IH]; intros seen Hnd; simpl.
  - repeat split; try tauto. exists []. reflexivity.
  - destruct (existsb (option_string_eqb c) seen) eqn:E.
    + destruct (IH seen Hnd) as [H1 [H2 H3]].
      split; [exact H1|]. split; [|exact H3].
      intros c'. rewrite H2. split; [tauto|].
      intros [H|[<-|H]]; auto.
      left. apply existsb_exists in E. destruct E as [x [Hx Ex]].
      apply option_string_eqb_eq in Ex. now subst x.
    + assert (Hnd' : NoDup (c :: seen)).
      { constructor; [|exact Hnd]. intros Hin.
        assert (existsb (option_string_eqb c) seen = true); [|congruence].
        apply existsb_exists. exists c. split; [exact Hin|].
        now apply option_string_eqb_eq. }
      destruct (IH (c :: seen) Hnd') as [H1 [H2 [added H3]]].
      split; [exact H1|]. split.
      * intros c'. rewrite H2. simpl. tauto.
      * exists (added ++ [c])%list. rewrite H3, <- app_assoc. reflexivity.
Qed.

(** X17. The options of a sidebar multiselect after 'All': every value of the
    roster column, each one once, the value of the first roster row first. *)
Theorem multiselect_options_distinct :
  forall (cells : list (option string)),
    NoDup (unique cells) /\
    (forall c, In c (unique cells) <-> In c cells) /\
    (forall c rest, cells = c :: rest ->
                    exists others, unique cells = c :: others).
Proof.
  intros cells. unfold unique.
  destruct (unique_step_spec cells [] (NoDup_nil _)) as [H1 [H2 _]].
  repeat split.
  - apply NoDup_rev, H1.
  - intros H. rewrite <- in_rev in H. apply H2 in H.
    destruct H as [[]|H]. exact H.
  - intros H. rewrite <- in_rev. apply H2. now right.
  - intros c rest ->. simpl.
    destruct (unique_step_spec rest [c]) as [_ [_ [added ->]]].
    + repeat constructor. intros [].
    + rewrite rev_app_distr. simpl. eexists. reflexivity.
Qed.

Lemma multiselect_options_distinct_witness :
  exists others,
    unique (map i_category Ranking.roster) = Some "Fitness" :: others.
Proof.
  apply (multiselect_options_distinct (map i_category Ranking.roster))
    with (rest := [Some "Fitness"; Some "Beauty"]).
  reflexivity.
Defined.

Lemma date_min_attained (data : list Row) (m : Z) :
  date_min data = Timestamp m ->
  exists r, In r data /\ date r = Timestamp m.
Proof.
  revert m. induction data as [|x data IH]; simpl; [discriminate|].
  intros m E. destruct (date x) as [a| |txt] eqn:Ex.
  - destruct (date_min data) as [b| |txt] eqn:Eb.
    + injection E as <-.
      destruct (Z.min_spec a b) as [[_ ->]|[_ ->]].
      * exists x. auto.
      * destruct (IH b eq_refl) as [r [Hr Hd]]. exists r. auto.
    + injection E as <-. exists x. auto.
    + injection E as <-. exists x. auto.
  - destruct (IH m E) as [r [Hr Hd]]. exists r. auto.
  - destruct (IH m E) as [r [Hr Hd]]. exists r. auto.
Qed.

Lemma date_max_attained (data : list Row) (m : Z) :
  date_max data = Timestamp m ->
  exists r, In r data /\ date r = Timestamp m.
Proof.
  revert m. induction data as [|x data IH]; simpl; [discriminate|].
  intros m E. destruct (date x) as [a| |txt] eqn:Ex.
  - destruct (date_max data) as [b| |txt] eqn:Eb.
    + injection E as <-.
      destruct (Z.max_spec a b) as [[_ ->]|[_ ->]].
      * destruct (IH b eq_refl) as [r [Hr Hd]]. exists r. auto.
      * exists x. auto.
    + injection E as <-. exists x. auto.
    + injection E as <-. exists x. auto.
  - destruct (IH m E) as [r [Hr Hd]]. exists r. auto.
  - destruct (IH m E) as [r [Hr Hd]]. exists r. auto.
Qed.

Lemma date_min_lower (data : list Row) (r : Row) (ns : Z) :
  In r data -> date r = Timestamp ns ->
  exists m, date_min data = Timestamp m /\ (m <= ns)%Z.
Proof.
  induction data as [|x data IH]; simpl; [intros []|].
  intros [->|Hin] Hd.
  - rewrite Hd. destruct (date_min data) as [b| |txt].
    + exists (Z.min ns b). split; [reflexivity | lia].
    + exists ns. split; [reflexivity | lia].
    + exists ns. split; [reflexivity | lia].
  - destruct (IH Hin Hd) as [m [-> Hle]].
    destruct (date x) as [a| |txt].
    + exists (Z.min a m). split; [reflexivity | lia].
    + exists m. split; [reflexivity | lia].
    + exists m. split; [reflexivity | lia].
Qed.

Lemma date_max_upper (data : list Row) (r : Row) (ns : Z) :
  In r data -> date r = Timestamp ns ->
  exists m, date_max data = Timestamp m /\ (ns <= m)%Z.
Proof.
  induction data as [|x data IH]; simpl; [intros []|].
  intros [->|Hin] Hd.
  - rewrite Hd. destruct (date_max data) as [b| |txt].
    + exists (Z.max ns b). split; [reflexivity | lia].
    + exists ns. split; [reflexivity | lia].
    + exists ns. split; [reflexivity | lia].
  - destruct (IH Hin Hd) as [m [-> Hle]].
    destruct (date x) as [a| |txt].
    + exists (Z.max a m). split; [reflexivity | lia].
    + exists m. split; [reflexivity | lia].
    + exists m. split; [reflexivity | lia].
Qed.

Lemma in_dates_between (s e : Z) (r : Row) (ns : Z) :
  date r = Timestamp ns ->
  in_dates s e r = true <-> (s * ns_per_day <= ns <= e * ns_per_day)%Z.
Proof.
  intros E. unfold in_dates, date_ge, date_le, pd_Timestamp. rewrite E.
  rewrite andb_true_iff, !Z.leb_le. tauto.
Qed.

Lemma day_at_midnight (ns : Z) :
  (ns mod ns_per_day = 0)%Z -> (ns / ns_per_day * ns_per_day = ns)%Z.
Proof.
  intros H. pose proof (Z.div_mod ns ns_per_day) as Hdm.
  unfold ns_per_day in *. lia.
Qed.

(** X18. The range the date widget starts with: the days of the earliest and of
    the latest timestamp. When every row is stamped at midnight this range
    (with 'All' twice) lets the whole table through; when the latest
    timestamp is later than midnight, the row that carries it is filtered
    out. *)
Theorem initial_date_range :
  forall (data : list Row),
    data <> [] ->
    Forall (fun r => exists ns, date r = Timestamp ns) data ->
    exists dmin dmax,
      date_min data = Timestamp dmin /\ date_max data = Timestamp dmax /\
      let f := mkFilters [(dmin / ns_per_day)%Z; (dmax / ns_per_day)%Z]
                         ["All"] ["All"] in
      (Forall (fun r => exists ns, date r = Timestamp ns /\
                                   (ns mod ns_per_day = 0)%Z) data ->
       filtered_df data f = Ok data) /\
      ((dmax mod ns_per_day <> 0)%Z ->
       exists r, In r data /\ date r = Timestamp dmax /\
                 forall df, filtered_df data f = Ok df -> ~ In r df).
Proof.
  intros data Hne Hts.
  destruct data as [|r0 rest] eqn:Edata; [congruence|]. rewrite <- Edata in *.
  assert (Hr0 : In r0 data) by (rewrite Edata; now left).
  rewrite Forall_forall in Hts. destruct (Hts r0 Hr0) as [ns0 Hns0].
  destruct (date_min_lower data r0 ns0 Hr0 Hns0) as [dmin [Emin _]].
  destruct (date_max_upper data r0 ns0 Hr0 Hns0) as [dmax [Emax _]].
  exists dmin, dmax. split; [exact Emin|]. split; [exact Emax|].
  assert (Hf : forall df,
             filtered_df data
               (mkFilters [(dmin / ns_per_day)%Z; (dmax / ns_per_day)%Z]
                          ["All"] ["All"]) = Ok df ->
             df = filter (in_dates (dmin / ns_per_day) (dmax / ns_per_day))
                         data).
  { intros df H. unfold filtered_df, category_platform_filtered in H.
    simpl in H. now injection H as <-. }
  cbv zeta. split.
  - intros Hmid. rewrite Forall_forall in Hmid.
    unfold filtered_df, category_platform_filtered. simpl. f_equal.
    apply filter_all, Forall_forall. intros r Hr.
    destruct (Hmid r Hr) as [ns [Hns Hmod]].
    apply (in_dates_between _ _ r ns Hns).
    destruct (date_min_lower data r ns Hr Hns) as [m [Em Hle]].
    destruct (date_max_upper data r ns Hr Hns) as [M [EM Hge]].
    rewrite Emin in Em. injection Em as <-.
    rewrite Emax in EM. injection EM as <-.
    destruct (date_min_attained data dmin Emin) as [r1 [Hr1 Hd1]].
    destruct (date_max_attained data dmax Emax) as [r2 [Hr2 Hd2]].
    destruct (Hmid r1 Hr1) as [n1 [Hn1 Hm1]].
    destruct (Hmid r2 Hr2) as [n2 [Hn2 Hm2]].
    rewrite Hd1 in Hn1. injection Hn1 as <-.
    rewrite Hd2 in Hn2. injection Hn2 as <-.
    rewrite (day_at_midnight dmin Hm1), (day_at_midnight dmax Hm2). lia.
  - intros Hmod.
    destruct (date_max_attained data dmax Emax) as [r [Hr Hd]].
    exists r. split; [exact Hr|]. split; [exact Hd|].
    intros df Hdf Hin. rewrite (Hf df Hdf) in Hin.
    apply filter_In in Hin. destruct Hin as [_ Hin].
    apply (in_dates_between _ _ r dmax Hd) in Hin.
    pose proof (Z.div_mod dmax ns_per_day) as Hdm.
    pose proof (Z.mod_pos_bound dmax ns_per_day) as Hb.
    unfold ns_per_day in *. lia.
Qed.

Lemma initial_date_range_witness :
  exists dmin dmax,
    date_min Scenario.unified = Timestamp dmin /\
    date_max Scenario.unified = Timestamp dmax /\
    let f := mkFilters [(dmin / ns_per_day)%Z; (dmax / ns_per_day)%Z]
                       ["All"] ["All"] in
    (Forall (fun r => exists ns, date r = Timestamp ns /\
                                 (ns mod ns_per_day = 0)%Z)
            Scenario.unified ->
     filtered_df Scenario.unified f = Ok Scenario.unified) /\
    ((dmax mod ns_per_day <> 0)%Z ->
     exists r, In r Scenario.unified /\ date r = Timestamp dmax /\
               forall df, filtered_df Scenario.unified f = Ok df ->
                          ~ In r df).
Proof.
  apply (initial_date_range Scenario.unified).
  - discriminate.
  - repeat constructor; exists 0%Z; reflexivity.
Defined.

(** ** The post table *)

(** X19. With a roster that repeats no ID the post table has one row per post, in
    the order of the posts file, with the post's own platform, date, reach,
    likes and comments, and the name of the post's influencer, or no name
    when the roster does not have that influencer. *)
Theorem post_table_with_unique_roster :
  forall (posts : list Post) (roster : list Influencer),
    NoDup (map i_ID roster) ->
    List.length (post_performance posts roster) = List.length posts /\
    map pr_platform_x (post_performance posts roster) = map p_platform posts /\
    map pr_date (post_performance posts roster) = map p_date posts /\
    map pr_reach (post_performance posts roster) = map p_reach posts /\
    map pr_likes (post_performance posts roster) = map p_likes posts /\
    map pr_comments (post_performance posts roster) = map p_comments posts /\
    map pr_name (post_performance posts roster)
    = map (fun p =>
             match find (fun i => key_eqb (p_influencer_id p) (i_ID i)) roster
             with
             | Some i => i_name i
             | None => None
             end) posts.
Proof.
  intros posts roster Hnd. unfold post_performance.
  rewrite merge_left_lookup
    by (intros p; now apply (unique_key_matches_once i_ID)).
  rewrite length_map, !map_map. simpl. repeat split.
Qed.

Lemma post_table_with_unique_roster_witness :
  List.length
    (post_performance
       [mkPost (Some 9%Z) (Some "YouTube") (Some "2024-01-05") (Some 100%Z)
               (Some 10%Z) (Some 1%Z)] Scenario.roster) = 1%nat.
Proof.
  apply (post_table_with_unique_roster
           [mkPost (Some 9%Z) (Some "YouTube") (Some "2024-01-05")
                   (Some 100%Z) (Some 10%Z) (Some 1%Z)] Scenario.roster).
  repeat constructor. intros [].
Defined.
